(** * Bem Saúde API: verification of the Auth0 token dependency

    Shallow embedding of [src/bem_saude/api/auth.py]: the module-level JWKS
    cache [_jwks_cache], the fetch [_obter_jwks] and the FastAPI dependency
    [validar_token].

    Python values coming from JSON are a small inductive type, exceptions
    are an inductive type with their class tests, and the code runs in a
    state-and-exception monad over the module's global state.  The network
    (httpx) and the JWT library (python-jose) are not part of the
    repository: the network is an input of every run and the JWT library is
    a record of operations, with a reference model in [Module Jose]. *)

From Stdlib Require Import ZArith List Bool String Ascii Lia Permutation.
Import ListNotations.
Open Scope string_scope.
Open Scope Z_scope.
Set Warnings "-register-all".

(** ** Python values *)

(** Values produced by [json.loads]: [None], booleans, integers, strings,
    lists and string-keyed dicts.  JSON floats are outside the model.  A
    dict is kept as its list of items; the first binding of a name is the
    binding of the dict. *)
Inductive pyval : Type :=
| PNone
| PBool (b : bool)
| PInt (n : Z)
| PStr (s : string)
| PList (xs : list pyval)
| PDict (items : list (string * pyval)).

Fixpoint dict_get (items : list (string * pyval)) (k : string) : option pyval :=
  match items with
  | [] => None
  | (k', v) :: rest => if String.eqb k' k then Some v else dict_get rest k
  end.

Definition has_key (items : list (string * pyval)) (k : string) : bool :=
  match dict_get items k with Some _ => true | None => false end.

(** Python's [==] on these values: [bool] is a subclass of [int], lists
    compare element-wise, dicts compare as mappings. *)
Fixpoint py_eq (a b : pyval) {struct a} : bool :=
  match a, b with
  | PNone, PNone => true
  | PBool x, PBool y => Bool.eqb x y
  | PBool x, PInt n => Z.eqb (Z.b2z x) n
  | PInt n, PBool x => Z.eqb n (Z.b2z x)
  | PInt m, PInt n => Z.eqb m n
  | PStr s, PStr t => String.eqb s t
  | PList xs, PList ys =>
      (fix all2 (xs ys : list pyval) {struct xs} : bool :=
         match xs, ys with
         | [], [] => true
         | x :: xs', y :: ys' => py_eq x y && all2 xs' ys'
         | _, _ => false
         end) xs ys
  | PDict d, PDict e =>
      (fix sub (d' : list (string * pyval)) {struct d'} : bool :=
         match d' with
         | [] => true
         | (k, v) :: rest =>
             match dict_get e k with
             | Some w => py_eq v w
             | None => false
             end && sub rest
         end) d
      && forallb (fun kv => has_key d (fst kv)) e
  | _, _ => false
  end.

(** Truth value of a value ([if not rsa_key]). *)
Definition py_truthy (v : pyval) : bool :=
  match v with
  | PNone => false
  | PBool b => b
  | PInt n => negb (Z.eqb n 0)
  | PStr s => negb (String.eqb s "")
  | PList xs => match xs with [] => false | _ => true end
  | PDict d => match d with [] => false | _ => true end
  end.

(** ** Exceptions *)

Inductive exn : Type :=
(* jose.exceptions: JWTError and its two subclasses, and JWKError *)
| JWTError (msg : string)
| ExpiredSignatureError (msg : string)
| JWTClaimsError (msg : string)
| JWKError (msg : string)
(* httpx: subclasses of httpx.HTTPError *)
| ConnectError
| TimeoutException
| HTTPStatusError (code : Z)
(* builtins *)
| JSONDecodeError
| ValueError (msg : string)
| KeyError (k : string)
| TypeError (msg : string)
| AttributeError (msg : string)
(* fastapi *)
| HTTPException (status_code : Z) (detail : string).

(** [isinstance(e, JWTError)] *)
Definition is_JWTError (e : exn) : bool :=
  match e with
  | JWTError _ | ExpiredSignatureError _ | JWTClaimsError _ => true
  | _ => false
  end.

(** [isinstance(e, httpx.HTTPError)] *)
Definition is_HTTPError (e : exn) : bool :=
  match e with
  | ConnectError | TimeoutException | HTTPStatusError _ => true
  | _ => false
  end.

Definition HTTP_401_UNAUTHORIZED : Z := 401.
Definition HTTP_503_SERVICE_UNAVAILABLE : Z := 503.

(** ** Results and the pure exception monad *)

Inductive result (A : Type) : Type :=
| Return (a : A)
| Raise (e : exn).
Arguments Return {A} a.
Arguments Raise {A} e.

Definition rbind {A B} (r : result A) (k : A -> result B) : result B :=
  match r with
  | Return a => k a
  | Raise e => Raise e
  end.

Declare Scope res_scope.
Delimit Scope res_scope with res.
Notation "x <- c ;; k" := (rbind c (fun x => k))
  (at level 61, c at next level, right associativity) : res_scope.

(** ** Operations of Python objects used by the module *)

(** [obj[k]] for a string [k]. *)
Definition py_getitem (obj : pyval) (k : string) : result pyval :=
  match obj with
  | PDict d =>
      match dict_get d k with
      | Some v => Return v
      | None => Raise (KeyError k)
      end
  | PList _ => Raise (TypeError "list indices must be integers or slices, not str")
  | PStr _ => Raise (TypeError "string indices must be integers")
  | _ => Raise (TypeError "object is not subscriptable")
  end.

(** [obj.get(k, default)]: only dicts have the method. *)
Definition py_get (obj : pyval) (k : string) (default : pyval) : result pyval :=
  match obj with
  | PDict d =>
      match dict_get d k with
      | Some v => Return v
      | None => Return default
      end
  | _ => Raise (AttributeError "object has no attribute 'get'")
  end.

(** The items a [for] loop visits: the elements of a list, the key names of
    a dict, the characters of a string (one per byte here). *)
Definition py_iter (obj : pyval) : result (list pyval) :=
  match obj with
  | PList xs => Return xs
  | PDict d => Return (map (fun kv => PStr (fst kv)) d)
  | PStr s => Return (map (fun c => PStr (String c "")) (list_ascii_of_string s))
  | _ => Raise (TypeError "object is not iterable")
  end.

(** ** The module state, the network and the state-and-exception monad *)

(** The module's global [_jwks_cache] (initially [None]) and, as ghost
    state, the number of [httpx.get] requests issued so far. *)
Record world : Type := mkWorld {
  _jwks_cache : pyval;
  requests : nat
}.

Definition initial_world : world := mkWorld PNone 0.

(** What one [httpx.get(jwks_url, timeout=10)] produces: the call raises,
    or it returns a response with a status code and a body; [body] is
    [None] when the body is not a JSON text. *)
Inductive http_outcome : Type :=
| TransportFailure (e : exn)
| Response (status_code : Z) (body : option pyval).

(** The provider as seen by the process: the outcome of the n-th request. *)
Definition network : Type := nat -> http_outcome.

Definition M (A : Type) : Type := world -> result A * world.

Definition ret {A} (a : A) : M A := fun w => (Return a, w).
Definition raise {A} (e : exn) : M A := fun w => (Raise e, w).
Definition bind {A B} (m : M A) (k : A -> M B) : M B :=
  fun w =>
    match m w with
    | (Return a, w') => k a w'
    | (Raise e, w') => (Raise e, w')
    end.
Definition lift {A} (r : result A) : M A := fun w => (r, w).

(** [try: body except ...: handler] *)
Definition try_except {A} (body : M A) (handler : exn -> M A) : M A :=
  fun w =>
    match body w with
    | (Return a, w') => (Return a, w')
    | (Raise e, w') => handler e w'
    end.

Declare Scope m_scope.
Delimit Scope m_scope with m.
Notation "x <- c ;; k" := (bind c (fun x => k))
  (at level 61, c at next level, right associativity) : m_scope.
Notation "c ;;; k" := (bind c (fun _ => k))
  (at level 61, right associativity) : m_scope.

Definition read_cache : M pyval := fun w => (Return (_jwks_cache w), w).
Definition write_cache (j : pyval) : M unit :=
  fun w => (Return tt, mkWorld j (requests w)).

(** [httpx.get]: one more request has been issued, whatever its outcome. *)
Definition httpx_get (net : network) : M (Z * option pyval) :=
  fun w =>
    let w' := mkWorld (_jwks_cache w) (S (requests w)) in
    match net (requests w) with
    | TransportFailure e => (Raise e, w')
    | Response code body => (Return (code, body), w')
    end.

(** [response.raise_for_status()]: httpx raises [HTTPStatusError] unless
    the status code is a 2xx. *)
Definition is_success (code : Z) : bool := (200 <=? code) && (code <=? 299).

Definition raise_for_status (response : Z * option pyval) : result unit :=
  if is_success (fst response) then Return tt
  else Raise (HTTPStatusError (fst response)).

(** [response.json()] *)
Definition response_json (response : Z * option pyval) : result pyval :=
  match snd response with
  | Some j => Return j
  | None => Raise JSONDecodeError
  end.

Definition is_None (v : pyval) : bool :=
  match v with PNone => true | _ => false end.

(** ** [_obter_jwks] *)

Definition _obter_jwks (net : network) : M pyval :=
  (cached <- read_cache ;;
   if negb (is_None cached) then ret cached
   else
     response <- httpx_get net ;;
     lift (raise_for_status response) ;;;
     j <- lift (response_json response) ;;
     write_cache j ;;;
     ret j)%m.

(** ** Configuration and the JWT library *)

(** The two settings the module reads from [configuracoes]. *)
Record configuracoes : Type := {
  AUTH0_DOMAIN : string;
  AUTH0_AUDIENCE : string
}.

(** The two functions of python-jose's [jwt] module the code calls.
    [decode token key algorithms audience issuer now] stands for
    [jwt.decode(token, key, algorithms=..., audience=..., issuer=...)]
    evaluated when the clock reads [now] (seconds since the epoch). *)
Record jwt_api (token : Type) : Type := {
  get_unverified_header : token -> result pyval;
  decode : token -> pyval -> list string -> string -> string -> Z -> result pyval
}.
Arguments get_unverified_header {token} _ _.
Arguments decode {token} _ _ _ _ _ _ _.

(** ** [validar_token] *)

(** The five members copied out of the matching entry; each subscript can
    raise [KeyError]. *)
Definition build_rsa_key (key : pyval) : result pyval :=
  (kty <- py_getitem key "kty" ;;
   kid <- py_getitem key "kid" ;;
   use <- py_getitem key "use" ;;
   n <- py_getitem key "n" ;;
   e <- py_getitem key "e" ;;
   Return (PDict [("kty", kty); ("kid", kid); ("use", use); ("n", n); ("e", e)]))%res.

(** The [for key in ...: if key["kid"] == kid: ...; break] loop, started
    with [rsa_key = {}]. *)
Fixpoint find_rsa_key (keys : list pyval) (kid : pyval) : result pyval :=
  match keys with
  | [] => Return (PDict [])
  | key :: rest =>
      (k <- py_getitem key "kid" ;;
       if py_eq k kid then build_rsa_key key
       else find_rsa_key rest kid)%res
  end.

Definition key_not_found : exn :=
  HTTPException HTTP_401_UNAUTHORIZED "Token inválido: chave não encontrada".
Definition invalid_or_expired : exn :=
  HTTPException HTTP_401_UNAUTHORIZED "Token inválido ou expirado".
Definition auth_unavailable : exn :=
  HTTPException HTTP_503_SERVICE_UNAVAILABLE "Erro ao validar autenticação".

(** The exception that leaves the [try] statement when [e] is raised in
    its body: [JWTError] and [httpx.HTTPError] are replaced, anything else
    propagates unchanged. *)
Definition translate (e : exn) : exn :=
  if is_JWTError e then invalid_or_expired
  else if is_HTTPError e then auth_unavailable
  else e.

Definition settle {A} (r : result A) : result A :=
  match r with
  | Return a => Return a
  | Raise e => Raise (translate e)
  end.

Section Auth.
Context {token : Type}.
Variable jwt : jwt_api token.
Variable cfg : configuracoes.

Definition issuer : string := "https://" ++ AUTH0_DOMAIN cfg ++ "/".

(** Lines 58-90: everything in the [try] block after [jwks] is bound. *)
Definition verify_with (now : Z) (tok : token) (jwks : pyval) : result pyval :=
  (unverified_header <- get_unverified_header jwt tok ;;
   kid <- py_get unverified_header "kid" PNone ;;
   keys_obj <- py_get jwks "keys" (PList []) ;;
   keys <- py_iter keys_obj ;;
   rsa_key <- find_rsa_key keys kid ;;
   if negb (py_truthy rsa_key) then Raise key_not_found
   else
     payload <- decode jwt tok rsa_key ["RS256"] (AUTH0_AUDIENCE cfg) issuer now ;;
     Return payload)%res.

(** The two [except] clauses; any other exception propagates. *)
Definition handler {A} (e : exn) : M A :=
  if is_JWTError e then raise invalid_or_expired
  else if is_HTTPError e then raise auth_unavailable
  else raise e.

Definition validar_token (net : network) (now : Z) (tok : token) : M pyval :=
  try_except
    (jwks <- _obter_jwks net ;;
     lift (verify_with now tok jwks))%m
    handler.

(** What a call returns or raises once [_obter_jwks] has returned or
    raised [r]. *)
Definition outcome (now : Z) (tok : token) (r : result pyval) : result pyval :=
  settle (jwks <- r ;; verify_with now tok jwks)%res.

End Auth.

(** ** Vocabulary for the statements *)

(** The entries the loop of [validar_token] visits for a key-set document. *)
Definition keys_of (jwks : pyval) : result (list pyval) :=
  (keys_obj <- py_get jwks "keys" (PList []) ;; py_iter keys_obj)%res.

(** The entry has a ["kid"] member and it differs from / equals [kid]. *)
Definition kid_differs (kid key : pyval) : bool :=
  match py_getitem key "kid" with
  | Return k => negb (py_eq k kid)
  | Raise _ => false
  end.

Definition kid_matches (kid key : pyval) : bool :=
  match py_getitem key "kid" with
  | Return k => py_eq k kid
  | Raise _ => false
  end.

(** The document the next request would store in the cache: the request
    must return a 2xx response whose body is JSON. *)
Definition fetch_ok (net : network) (w : world) : option pyval :=
  match net (requests w) with
  | Response code (Some j) => if is_success code then Some j else None
  | _ => None
  end.

(** The next request fails in a way httpx reports as an [HTTPError]: the
    transport raises one, or the status is not a 2xx. *)
Definition fetch_http_error (net : network) (w : world) : bool :=
  match net (requests w) with
  | TransportFailure e => is_HTTPError e
  | Response code _ => negb (is_success code)
  end.

(** ** Reference model of python-jose

    python-jose is a third-party package.  This module is a model of the
    two functions [validar_token] calls, for compact tokens whose payload
    is a JSON object with well-typed registered claims.  Signatures are
    symbolic: a signature records the algorithm and the RSA key pair that
    produced it over exactly this header and payload, or is [Forged]
    (it verifies under no key, as after flipping a byte).  Whether the "n"
    and "e" members of a JWK are numbers the RSA backend can load is
    decided below the model (base64 decoding, the backend's checks): it is
    an input, the [backend].  The checks are those of [jwt.decode] with its
    default options, in its order: the algorithm allow-list, the
    construction of the key, the signature, then [nbf] and [exp] against
    the clock with the default leeway of zero, [aud], [iss], [jti] and
    [at_hash].  [iat] is only type-checked by the library, so it is carried
    and never compared with the clock.  The six registered claims live in
    the typed fields; [extra] contributes the claims of every other
    name. *)
Module Jose.

Inductive signature : Type :=
| Forged
| SignedBy (alg : string) (n e : string).

Inductive aud_claim : Type :=
| AudAbsent
| AudOne (a : string)
| AudMany (l : list string).

Record claims : Type := {
  iss : option string;
  sub : option string;
  aud : aud_claim;
  exp : option Z;
  nbf : option Z;
  iat : option Z;
  extra : list (string * pyval)
}.

Inductive token : Type :=
| Malformed
| Compact (header : list (string * pyval)) (body : claims) (sig : signature).

Definition opt_item {A} (k : string) (f : A -> pyval) (o : option A)
  : list (string * pyval) :=
  match o with Some a => [(k, f a)] | None => [] end.

Definition aud_item (a : aud_claim) : list (string * pyval) :=
  match a with
  | AudAbsent => []
  | AudOne s => [("aud", PStr s)]
  | AudMany l => [("aud", PList (map PStr l))]
  end.

(** The names carried by the typed fields, and the claims of any other
    name. *)
Definition registered : list string := ["iss"; "sub"; "aud"; "exp"; "nbf"; "iat"].

Definition other_claims (c : claims) : list (string * pyval) :=
  filter (fun kv => negb (existsb (String.eqb (fst kv)) registered)) (extra c).

(** The decoded claim set, as the dict [jwt.decode] returns. *)
Definition claims_dict (c : claims) : pyval :=
  PDict (opt_item "iss" PStr (iss c) ++ opt_item "sub" PStr (sub c)
         ++ aud_item (aud c)
         ++ opt_item "exp" PInt (exp c) ++ opt_item "nbf" PInt (nbf c)
         ++ opt_item "iat" PInt (iat c) ++ other_claims c).

(** What constructing the RSA key from the members "n" and "e" of a JWK
    does: the key is loaded, or the constructor raises. *)
Inductive key_status : Type :=
| Usable
| RaisesValueError
| RaisesTypeError.

Definition backend : Type := pyval -> pyval -> key_status.

Definition get_unverified_header (tok : token) : result pyval :=
  match tok with
  | Malformed => Raise (JWTError "Error decoding token headers.")
  | Compact header _ _ => Return (PDict header)
  end.

(** [alg in algorithms] *)
Definition alg_allowed (alg : pyval) (algorithms : list string) : bool :=
  existsb (fun a => py_eq alg (PStr a)) algorithms.

Definition member_is (d : list (string * pyval)) (k : string) (v : pyval) : bool :=
  match dict_get d k with
  | Some w => py_eq w v
  | None => false
  end.

(** The signature verifies under the JWK [key] for algorithm [alg]. *)
Definition sig_matches (alg : pyval) (key : list (string * pyval)) (s : signature) : bool :=
  match s with
  | Forged => false
  | SignedBy a n e =>
      py_eq alg (PStr a) && member_is key "n" (PStr n) && member_is key "e" (PStr e)
  end.

Definition validate_nbf (leeway now : Z) (c : claims) : result unit :=
  match nbf c with
  | Some t =>
      if now + leeway <? t then Raise (JWTClaimsError "The token is not yet valid (nbf)")
      else Return tt
  | None => Return tt
  end.

Definition validate_exp (leeway now : Z) (c : claims) : result unit :=
  match exp c with
  | Some t =>
      if t <? now - leeway then Raise (ExpiredSignatureError "Signature has expired.")
      else Return tt
  | None => Return tt
  end.

Definition validate_aud (audience : string) (c : claims) : result unit :=
  match aud c with
  | AudAbsent => Return tt
  | AudOne a =>
      if String.eqb audience a then Return tt
      else Raise (JWTClaimsError "Invalid audience")
  | AudMany l =>
      if existsb (String.eqb audience) l then Return tt
      else Raise (JWTClaimsError "Invalid audience")
  end.

Definition validate_iss (issuer : string) (c : claims) : result unit :=
  match iss c with
  | Some i =>
      if String.eqb i issuer then Return tt
      else Raise (JWTClaimsError "Invalid issuer")
  | None => Raise (JWTClaimsError "Invalid issuer")
  end.

(** A "jti" claim must be a string. *)
Definition validate_jti (c : claims) : result unit :=
  match dict_get (other_claims c) "jti" with
  | None | Some (PStr _) => Return tt
  | Some _ => Raise (JWTClaimsError "JWT ID must be a string.")
  end.

(** An "at_hash" claim is compared with the access token passed to
    [jwt.decode]; [validar_token] passes none. *)
Definition validate_at_hash (c : claims) : result unit :=
  match dict_get (other_claims c) "at_hash" with
  | None => Return tt
  | Some _ =>
      Raise (JWTClaimsError "No access_token provided to compare against at_hash claim.")
  end.

Definition validate_claims (leeway : Z) (audience issuer : string) (now : Z)
    (c : claims) : result unit :=
  (_ <- validate_nbf leeway now c ;;
   _ <- validate_exp leeway now c ;;
   _ <- validate_aud audience c ;;
   _ <- validate_iss issuer c ;;
   _ <- validate_jti c ;;
   validate_at_hash c)%res.

(** [jwk.construct] on a JWK dict for an RSA algorithm: the key type is
    checked, then "e" (default 256) and "n" are decoded and handed to the
    backend. *)
Definition construct (loads : backend) (k : list (string * pyval)) : result unit :=
  if negb (member_is k "kty" (PStr "RSA")) then Raise (JWKError "Incorrect key type")
  else
    let e := match dict_get k "e" with Some v => v | None => PInt 256 end in
    let n := match dict_get k "n" with Some v => v | None => PNone end in
    match loads n e with
    | Usable => Return tt
    | RaisesValueError => Raise (ValueError "key material is not usable")
    | RaisesTypeError => Raise (TypeError "key material is not usable")
    end.

(** [jwt.decode] with [options={"leeway": leeway}]. *)
Definition decode_with (loads : backend) (leeway : Z) (tok : token) (key : pyval)
    (algorithms : list string) (audience issuer : string) (now : Z)
  : result pyval :=
  match tok with
  | Malformed => Raise (JWTError "Not enough segments")
  | Compact header body sig =>
      let alg := match dict_get header "alg" with Some a => a | None => PNone end in
      if negb (py_truthy alg) then
        Raise (JWTError "No algorithm was specified in the JWS header.")
      else if negb (alg_allowed alg algorithms) then
        Raise (JWTError "The specified alg value is not allowed")
      else
        match key with
        | PDict k =>
            (_ <- construct loads k ;;
             if negb (sig_matches alg k sig) then
               Raise (JWTError "Signature verification failed.")
             else
               _ <- validate_claims leeway audience issuer now body ;;
               Return (claims_dict body))%res
        | _ => Raise (JWTError "Signature verification failed.")
        end
  end.

Definition default_leeway : Z := 0.

(** The library over a given backend. *)
Definition model (loads : backend) : jwt_api token :=
  Build_jwt_api token get_unverified_header (decode_with loads default_leeway).

(** The backend of the examples: "n0", "n1", "n2" and "other" name the
    moduli of four RSA keys it loads, with the exponent "AQAB"; it loads
    nothing else. *)
Definition example_backend : backend :=
  fun n e =>
    match n, e with
    | PStr n', PStr e' =>
        if String.eqb e' "AQAB"
           && existsb (String.eqb n') ["n0"; "n1"; "n2"; "other"]
        then Usable else RaisesValueError
    | _, _ => RaisesTypeError
    end.

Definition api : jwt_api token := model example_backend.

End Jose.

(** ** Fixtures: a provider, a configuration and tokens *)

Definition jwk (kid n : string) : pyval :=
  PDict [("alg", PStr "RS256"); ("kty", PStr "RSA"); ("use", PStr "sig");
         ("n", PStr n); ("e", PStr "AQAB"); ("kid", PStr kid)].

Definition jwks_of (keys : list pyval) : pyval := PDict [("keys", PList keys)].

Definition cfg0 : configuracoes :=
  {| AUTH0_DOMAIN := "bem-saude.us.auth0.com";
     AUTH0_AUDIENCE := "https://api.bem-saude" |}.

Definition claims0 : Jose.claims :=
  {| Jose.iss := Some "https://bem-saude.us.auth0.com/";
     Jose.sub := Some "auth0|42";
     Jose.aud := Jose.AudMany ["https://api.bem-saude"; "https://bem-saude.us.auth0.com/userinfo"];
     Jose.exp := Some 2000;
     Jose.nbf := None;
     Jose.iat := Some 1000;
     Jose.extra := [("scope", PStr "openid profile")] |}.

Definition header_of (alg kid : string) : list (string * pyval) :=
  [("alg", PStr alg); ("typ", PStr "JWT"); ("kid", PStr kid)].

(** A token for key [kid], signed by the key pair of modulus [n]. *)
Definition token_for (kid n : string) (c : Jose.claims) : Jose.token :=
  Jose.Compact (header_of "RS256" kid) c (Jose.SignedBy "RS256" n "AQAB").

Definition token0 : Jose.token := token_for "k1" "n1" claims0.

(** A provider that always answers 200 with the given document. *)
Definition serving (doc : pyval) : network := fun _ => Response 200 (Some doc).

(** A process that has cached the given document after one request. *)
Definition cached (doc : pyval) : world := mkWorld doc 1.

(** A provider that cannot be reached. *)
Definition unreachable : network := fun _ => TransportFailure ConnectError.

(** A provider whose first request fails and that serves [doc] afterwards. *)
Definition flaky (doc : pyval) : network :=
  fun i => match i with
           | O => TransportFailure ConnectError
           | S _ => Response 200 (Some doc)
           end.

(** The key set before and after the provider publishes a second key. *)
Definition doc1 : pyval := jwks_of [jwk "k1" "n1"].
Definition doc2 : pyval := jwks_of [jwk "k1" "n1"; jwk "k2" "n2"].

(** A key set in which a later entry repeats the kid of an earlier one. *)
Definition doc_dup : pyval := jwks_of [jwk "k0" "n0"; jwk "k1" "n1"; jwk "k1" "other"].

Definition forged_token : Jose.token :=
  Jose.Compact (header_of "RS256" "k1") claims0 Jose.Forged.

(** Three calls entered together. *)
Definition three_calls : list (Jose.token * Z) :=
  [(token0, 1500); (forged_token, 1500); (token0, 1600)].

(** A token that declares the "none" algorithm. *)
Definition none_token : Jose.token :=
  Jose.Compact (header_of "none" "k1") claims0 Jose.Forged.

(** The value of the header's "alg" member ([None] when absent). *)
Definition header_alg (h : list (string * pyval)) : pyval :=
  match dict_get h "alg" with Some a => a | None => PNone end.

(** What the code relies on when it passes [algorithms=["RS256"]]: the
    library rejects, with a [JWTError], every token whose declared
    algorithm is not in the list it is given. *)
Definition honours_allow_list {token : Type} (jwt : jwt_api token) : Prop :=
  forall tok h key algorithms audience issuer now,
    get_unverified_header jwt tok = Return (PDict h) ->
    existsb (fun a => py_eq (header_alg h) (PStr a)) algorithms = false ->
    exists e,
      decode jwt tok key algorithms audience issuer now = Raise e
      /\ is_JWTError e = true.

(** The key-set entry [key] is the RSA public key of modulus [n] and
    exponent [e] published under [kid], with the members of a signing key
    record (key type, identifier, use, modulus, exponent). *)
Definition is_rsa_jwk (key kid : pyval) (n e : string) : bool :=
  match key with
  | PDict k =>
      kid_matches kid key
      && Jose.member_is k "kty" (PStr "RSA")
      && has_key k "use"
      && Jose.member_is k "n" (PStr n)
      && Jose.member_is k "e" (PStr e)
  | _ => false
  end.

(** The audience claim names [audience] / is present and does not. *)
Definition aud_contains (a : Jose.aud_claim) (audience : string) : bool :=
  match a with
  | Jose.AudAbsent => false
  | Jose.AudOne s => String.eqb audience s
  | Jose.AudMany l => existsb (String.eqb audience) l
  end.


(** The claims beyond the registered ones are ones the decoder lets
    through: a "jti", if present, is a string, and there is no "at_hash"
    (no access token accompanies the call). *)
Definition accepts_other_claims (c : Jose.claims) : bool :=
  match dict_get (Jose.other_claims c) "jti" with
  | None | Some (PStr _) => true
  | Some _ => false
  end
  && negb (has_key (Jose.other_claims c) "at_hash").

(** The time claims at clock reading [now]. *)
Definition not_expired (now : Z) (c : Jose.claims) : bool :=
  match Jose.exp c with Some t => now <=? t | None => true end.

Definition already_valid (now : Z) (c : Jose.claims) : bool :=
  match Jose.nbf c with Some t => t <=? now | None => true end.




Definition with_iat (t : option Z) (c : Jose.claims) : Jose.claims :=
  {| Jose.iss := Jose.iss c; Jose.sub := Jose.sub c; Jose.aud := Jose.aud c;
     Jose.exp := Jose.exp c; Jose.nbf := Jose.nbf c; Jose.iat := t;
     Jose.extra := Jose.extra c |}.

(** The failure kinds of the specification (its section 7). *)
Inductive VerificationFailure : Type :=
| MalformedToken
| UnsupportedAlgorithm
| UnknownKey
| InvalidSignature
| TokenExpired
| TokenNotYetValid
| IssuerMismatch
| AudienceMismatch
| KeyRetrievalFailed.

(** ** Calls in progress at the same time

    [validar_token] is a synchronous dependency, which FastAPI runs in a
    worker thread: several calls can be in progress over the one module
    state, and the module takes no lock.  A call is followed through the
    points where it reads [_jwks_cache], waits for the network, or writes
    [_jwks_cache]; between two such points it only touches its own locals.
    A schedule says which call takes the next step. *)
Inductive pc : Type :=
| AtEntry                 (* line 31: about to test [_jwks_cache is not None] *)
| AtRequest               (* line 37: the cache read as None; about to call httpx.get *)
| AtStore (j : pyval)     (* line 39: the body is parsed; about to assign [_jwks_cache] *)
| Finished (r : result pyval).

Record call (token : Type) : Type := mkCall {
  call_token : token;
  call_now : Z;
  call_pc : pc
}.
Arguments mkCall {token} _ _ _.
Arguments call_token {token} _.
Arguments call_now {token} _.
Arguments call_pc {token} _.

Section Interleaving.
Context {token : Type}.
Variable jwt : jwt_api token.
Variable cfg : configuracoes.
Variable net : network.

Definition at_pc (c : call token) (p : pc) : call token :=
  mkCall (call_token c) (call_now c) p.

(** The call leaves [_obter_jwks] with [r] and runs to its end. *)
Definition finish (c : call token) (r : result pyval) : call token :=
  at_pc c (Finished (outcome jwt cfg (call_now c) (call_token c) r)).

Definition call_step (c : call token) (w : world) : call token * world :=
  match call_pc c with
  | AtEntry =>
      if negb (is_None (_jwks_cache w)) then (finish c (Return (_jwks_cache w)), w)
      else (at_pc c AtRequest, w)
  | AtRequest =>
      match (response <- httpx_get net ;;
             lift (raise_for_status response) ;;;
             lift (response_json response))%m w with
      | (Return j, w') => (at_pc c (AtStore j), w')
      | (Raise e, w') => (finish c (Raise e), w')
      end
  | AtStore j => (finish c (Return j), snd (write_cache j w))
  | Finished _ => (c, w)
  end.

(** The [i]-th call takes a step; nothing happens if there is no such call. *)
Fixpoint step_nth (i : nat) (cs : list (call token)) (w : world) {struct cs}
  : list (call token) * world :=
  match cs with
  | [] => ([], w)
  | c :: rest =>
      match i with
      | O => let (c', w') := call_step c w in (c' :: rest, w')
      | S i' => let (rest', w') := step_nth i' rest w in (c :: rest', w')
      end
  end.

Fixpoint run (schedule : list nat) (cs : list (call token)) (w : world)
  : list (call token) * world :=
  match schedule with
  | [] => (cs, w)
  | i :: later => let (cs', w') := step_nth i cs w in run later cs' w'
  end.

(** Calls that have all just been entered. *)
Definition entered (inputs : list (token * Z)) : list (call token) :=
  map (fun i => mkCall (fst i) (snd i) AtEntry) inputs.

(** Every call takes one step, in order. *)
Fixpoint sweep (cs : list (call token)) (w : world) : list (call token) * world :=
  match cs with
  | [] => ([], w)
  | c :: rest =>
      let (c', w1) := call_step c w in
      let (rest', w2) := sweep rest w1 in
      (c' :: rest', w2)
  end.

(** Calls that may still issue a request. *)
Definition may_request (c : call token) : nat :=
  match call_pc c with
  | AtEntry | AtRequest => 1
  | _ => 0
  end.

Definition pending (cs : list (call token)) : nat :=
  list_sum (map may_request cs).

End Interleaving.

(** The schedule in which all [k] calls take a step, then all take a second. *)
Definition lockstep (k : nat) : list nat := (seq 0 k ++ seq 0 k)%list.

(** The results of the calls that have finished. *)
Definition results {token : Type} (cs : list (call token)) : list (option (result pyval)) :=
  map (fun c => match call_pc c with Finished r => Some r | _ => None end) cs.

(** ** Calls served one after another *)

(** The process serves the calls in order, each on the state the previous
    one left; a call is the clock reading and the token it brings. *)
Fixpoint serve_all {token : Type} (jwt : jwt_api token) (cfg : configuracoes)
    (net : network) (calls : list (Z * token)) (w : world)
  : list (result pyval) * world :=
  match calls with
  | [] => ([], w)
  | c :: rest =>
      let (r, w1) := validar_token jwt cfg net (fst c) (snd c) w in
      let (rs, w2) := serve_all jwt cfg net rest w1 in
      (r :: rs, w2)
  end.

(** The members [validar_token] copies out of the matching entry, in the
    order it reads them, and the first of them an entry lacks. *)
Definition rsa_members : list string := ["kty"; "kid"; "use"; "n"; "e"].

Definition first_missing (k : list (string * pyval)) : option string :=
  find (fun m => negb (has_key k m)) rsa_members.

(** The entry has a "kid" member that is a string. *)
Definition has_str_kid (key : pyval) : bool :=
  match py_getitem key "kid" with
  | Return (PStr _) => true
  | _ => false
  end.

(** The exception is not one that [validar_token] reports as 503: it is no
    [httpx.HTTPError] and no [HTTPException] with status 503. *)
Definition not_503 (e : exn) : bool :=
  negb (is_HTTPError e)
  && match e with
     | HTTPException c _ => negb (c =? HTTP_503_SERVICE_UNAVAILABLE)
     | _ => true
     end.

(** ** Pacientes: the ORM model, the repository and the routes

    Embedding of [modelo_paciente.py], [repositorio_paciente.py],
    [paciente_rotas.py] and the request schemas of [paciente_schemas.py].
    The database session is the table it reads and writes: a list of rows,
    in storage order.  Every repository method commits before it returns,
    so a method is a function from table to table.  The constraints the
    ORM model declares on the table (primary key [id], unique [cpf]) make
    a commit that would break them raise [IntegrityError]; column widths
    are compared with the schemas but not enforced by the table.
    [StatusCadastro], [uuid7] and [date.fromisoformat] are not in the
    sources at hand: the two status values and the parser are parameters,
    and the fresh identifier is an argument of the route that creates. *)
Module Pacientes.

Definition UUID : Type := Z.

Record date : Type := mkDate { year : Z; month : Z; day : Z }.

Inductive erro : Type :=
| HTTPException (status_code : Z) (detail : string)   (* fastapi *)
| IntegrityError                                      (* sqlalchemy.exc *)
| ValueError.                                         (* builtin *)

Inductive retorno (A : Type) : Type :=
| Ok (a : A)
| Erro (e : erro).
Arguments Ok {A} a.
Arguments Erro {A} e.

Definition NOT_FOUND : Z := 404.

(** A row of the table 'pacientes'; nullable columns are options. *)
Record ModeloPaciente : Type := mkModeloPaciente {
  id : UUID;
  nome : string;
  cpf : string;
  telefone : string;
  endereco : option string;
  email : option string;
  data_nascimento : option date;
  observacoes : option string;
  status : string
}.

Definition tabela : Type := list ModeloPaciente.

(** The declared widths: String(255), String(14), String(15), String(255),
    String(255), String(10); [observacoes] is Text. *)
Definition opt_len (o : option string) : nat :=
  match o with Some s => String.length s | None => 0%nat end.

Definition cabe_nas_colunas (m : ModeloPaciente) : bool :=
  (String.length (nome m) <=? 255)%nat
  && (String.length (cpf m) <=? 14)%nat
  && (String.length (telefone m) <=? 15)%nat
  && (opt_len (endereco m) <=? 255)%nat
  && (opt_len (email m) <=? 255)%nat
  && (String.length (status m) <=? 10)%nat.

(** [PacienteCriarRequest] and [PacienteEditarRequest], with the length
    bounds of their fields. *)
Record PacienteCriarRequest : Type := {
  criar_nome : string;
  criar_cpf : string;
  criar_telefone : string;
  criar_endereco : string;
  criar_email : string;
  criar_data_nascimento : string;
  criar_observacoes : string
}.

Record PacienteEditarRequest : Type := {
  editar_nome : string;
  editar_telefone : string;
  editar_endereco : string;
  editar_email : string;
  editar_observacoes : string
}.

Definition entre (lo hi : nat) (s : string) : bool :=
  ((lo <=? String.length s) && (String.length s <=? hi))%nat.

Definition valida_criar (dados : PacienteCriarRequest) : bool :=
  entre 3 255 (criar_nome dados)
  && entre 11 14 (criar_cpf dados)
  && entre 10 15 (criar_telefone dados)
  && entre 0 255 (criar_endereco dados)
  && entre 0 255 (criar_email dados).

Definition valida_editar (dados : PacienteEditarRequest) : bool :=
  entre 3 255 (editar_nome dados)
  && entre 10 15 (editar_telefone dados)
  && entre 0 255 (editar_endereco dados)
  && entre 0 255 (editar_email dados).

(** The dict [_converter_status_para_bool] builds. *)
Record PacienteDict : Type := {
  dict_id : UUID;
  dict_nome : string;
  dict_cpf : string;
  dict_telefone : string;
  dict_endereco : option string;
  dict_email : option string;
  dict_data_nascimento : option date;
  dict_observacoes : option string;
  dict_status : bool
}.

Section Dominio.
(** [StatusCadastro.ATIVO.value] and [StatusCadastro.INATIVO.value]. *)
Variables ATIVO INATIVO : string.
(** [date.fromisoformat]; [None] stands for its [ValueError]. *)
Variable fromisoformat : string -> option date.
(** The rows in the order of [ORDER BY status, nome]. *)
Variable order_by_status_nome : tabela -> tabela.

(** *** RepositorioPaciente *)

(** [query(ModeloPaciente).filter(ModeloPaciente.id == id).first()] *)
Definition buscar_por_id (id0 : UUID) (t : tabela) : option ModeloPaciente :=
  find (fun m => Z.eqb (id m) id0) t.

(** The row [first()] returned is changed by [f] and committed. *)
Fixpoint atualizar (id0 : UUID) (f : ModeloPaciente -> ModeloPaciente) (t : tabela)
  : tabela :=
  match t with
  | [] => []
  | m :: rest =>
      if Z.eqb (id m) id0 then f m :: rest
      else m :: atualizar id0 f rest
  end.

(** [add], [commit]: the insert is refused when the primary key or the
    cpf is already in the table. *)
Definition criar (paciente : ModeloPaciente) (t : tabela)
  : retorno ModeloPaciente * tabela :=
  if existsb (fun m => Z.eqb (id m) (id paciente) || String.eqb (cpf m) (cpf paciente)) t
  then (Erro IntegrityError, t)
  else (Ok paciente, (t ++ [paciente])%list).

Definition listar (t : tabela) : list ModeloPaciente := order_by_status_nome t.

Definition com_dados (nome0 telefone0 endereco0 email0 observacoes0 : string)
    (m : ModeloPaciente) : ModeloPaciente :=
  mkModeloPaciente (id m) nome0 (cpf m) telefone0 (Some endereco0) (Some email0)
    (data_nascimento m) (Some observacoes0) (status m).

Definition com_status (s : string) (m : ModeloPaciente) : ModeloPaciente :=
  mkModeloPaciente (id m) (nome m) (cpf m) (telefone m) (endereco m) (email m)
    (data_nascimento m) (observacoes m) s.

Definition editar (id0 : UUID) (nome0 telefone0 endereco0 email0 observacoes0 : string)
    (t : tabela) : bool * tabela :=
  match buscar_por_id id0 t with
  | None => (false, t)
  | Some _ =>
      (true, atualizar id0 (com_dados nome0 telefone0 endereco0 email0 observacoes0) t)
  end.

Definition remover (id0 : UUID) (t : tabela) : bool * tabela :=
  match buscar_por_id id0 t with
  | None => (false, t)
  | Some _ => (true, atualizar id0 (com_status INATIVO) t)
  end.

Definition ativar (id0 : UUID) (t : tabela) : bool * tabela :=
  match buscar_por_id id0 t with
  | None => (false, t)
  | Some _ => (true, atualizar id0 (com_status ATIVO) t)
  end.

(** *** paciente_rotas *)

Definition _converter_status_para_bool (modelo : ModeloPaciente) : PacienteDict :=
  {| dict_id := id modelo;
     dict_nome := nome modelo;
     dict_cpf := cpf modelo;
     dict_telefone := telefone modelo;
     dict_endereco := endereco modelo;
     dict_email := email modelo;
     dict_data_nascimento := data_nascimento modelo;
     dict_observacoes := observacoes modelo;
     dict_status := String.eqb (status modelo) ATIVO |}.

Definition nao_encontrado : erro := HTTPException NOT_FOUND "Paciente não encontrado".

(** [novo_id] is the value [uuid7()] returns in this call. *)
Definition criar_paciente (dados : PacienteCriarRequest) (novo_id : UUID) (t : tabela)
  : retorno PacienteDict * tabela :=
  let data_nasc :=
    if negb (String.eqb (criar_data_nascimento dados) "") then
      match fromisoformat (criar_data_nascimento dados) with
      | Some d => Ok (Some d)
      | None => Erro ValueError
      end
    else Ok None in
  match data_nasc with
  | Erro e => (Erro e, t)
  | Ok data_nasc =>
      let paciente :=
        mkModeloPaciente novo_id (criar_nome dados) (criar_cpf dados)
          (criar_telefone dados) (Some (criar_endereco dados))
          (Some (criar_email dados)) data_nasc (Some (criar_observacoes dados))
          ATIVO in
      match criar paciente t with
      | (Ok paciente, t') => (Ok (_converter_status_para_bool paciente), t')
      | (Erro e, t') => (Erro e, t')
      end
  end.

Definition listar_pacientes (t : tabela) : list PacienteDict :=
  map _converter_status_para_bool (listar t).

Definition buscar_paciente (id0 : UUID) (t : tabela) : retorno PacienteDict :=
  match buscar_por_id id0 t with
  | None => Erro nao_encontrado
  | Some paciente => Ok (_converter_status_para_bool paciente)
  end.

Definition inativar_paciente (id0 : UUID) (t : tabela) : retorno unit * tabela :=
  let (inativou, t') := remover id0 t in
  if negb inativou then (Erro nao_encontrado, t') else (Ok tt, t').

Definition alterar_paciente (id0 : UUID) (dados : PacienteEditarRequest) (t : tabela)
  : retorno unit * tabela :=
  let (editou, t') :=
    editar id0 (editar_nome dados) (editar_telefone dados) (editar_endereco dados)
      (editar_email dados) (editar_observacoes dados) t in
  if negb editou then (Erro nao_encontrado, t') else (Ok tt, t').

Definition ativar_paciente (id0 : UUID) (t : tabela) : retorno unit * tabela :=
  let (ativou, t') := ativar id0 t in
  if negb ativou then (Erro nao_encontrado, t') else (Ok tt, t').

(** *** Requests in sequence *)

Inductive pedido : Type :=
| Criar (dados : PacienteCriarRequest) (novo_id : UUID)
| Inativar (id0 : UUID)
| Ativar (id0 : UUID)
| Alterar (id0 : UUID) (dados : PacienteEditarRequest).

(** The table a request leaves. *)
Definition executar (p : pedido) (t : tabela) : tabela :=
  match p with
  | Criar dados novo_id => snd (criar_paciente dados novo_id t)
  | Inativar id0 => snd (inativar_paciente id0 t)
  | Ativar id0 => snd (ativar_paciente id0 t)
  | Alterar id0 dados => snd (alterar_paciente id0 dados t)
  end.

Definition executar_todos (ps : list pedido) (t : tabela) : tabela :=
  fold_left (fun t p => executar p t) ps t.

End Dominio.

(** The constraints of the table: no two rows share an id or a cpf. *)
Definition bem_formada (t : tabela) : Prop :=
  NoDup (map id t) /\ NoDup (map cpf t).

(** A parser for the witnesses: it accepts the ten-character form
    YYYY-MM-DD and reads nothing from it. *)
Definition fromisoformat_exemplo (s : string) : option date :=
  if Nat.eqb (String.length s) 10 then Some (mkDate 1990 5 15) else None.

Definition maria : PacienteCriarRequest :=
  {| criar_nome := "Maria da Silva";
     criar_cpf := "123.456.789-00";
     criar_telefone := "(47) 99999-9999";
     criar_endereco := "Rua das Flores, 123";
     criar_email := "maria@email.com";
     criar_data_nascimento := "1990-05-15";
     criar_observacoes := "" |}.

Definition maria_editada : PacienteEditarRequest :=
  {| editar_nome := "Maria de Souza";
     editar_telefone := "(47) 98888-8888";
     editar_endereco := "Rua das Palmeiras, 45";
     editar_email := "maria.souza@email.com";
     editar_observacoes := "Alergia a dipirona" |}.

Definition jose_row : ModeloPaciente :=
  mkModeloPaciente 7 "Jose Santos" "987.654.321-00" "(47) 97777-7777"
    None None None None "ATIVO".

Definition maria_row : ModeloPaciente :=
  mkModeloPaciente 8 "Maria da Silva" "123.456.789-00" "(47) 99999-9999"
    (Some "Rua das Flores, 123") (Some "maria@email.com") (Some (mkDate 1990 5 15))
    (Some "") "ATIVO".

End Pacientes.

(** A key set whose only entry has no "use" member, a token without a
    "kid" header member, and a provider that answers with JSON [null]. *)
Definition doc_sem_use : pyval :=
  jwks_of [PDict [("kty", PStr "RSA"); ("kid", PStr "k1"); ("n", PStr "n1");
                  ("e", PStr "AQAB")]].

Definition token_sem_kid : Jose.token :=
  Jose.Compact [("alg", PStr "RS256"); ("typ", PStr "JWT")] claims0
    (Jose.SignedBy "RS256" "n1" "AQAB").

Definition serving_null : network := fun _ => Response 200 (Some PNone).

(** Calls that arrive after the key set has been cached. *)
Definition three_calls_later : list (Z * Jose.token) :=
  [(1500, token0); (1600, forged_token); (2500, token0)].

(** Requests and tables for the instances of the pacientes properties. *)
Definition maria_sem_data : Pacientes.PacienteCriarRequest :=
  {| Pacientes.criar_nome := "Maria da Silva";
     Pacientes.criar_cpf := "123.456.789-00";
     Pacientes.criar_telefone := "(47) 99999-9999";
     Pacientes.criar_endereco := "Rua das Flores, 123";
     Pacientes.criar_email := "maria@email.com";
     Pacientes.criar_data_nascimento := "";
     Pacientes.criar_observacoes := "" |}.

Definition maria_data_invalida : Pacientes.PacienteCriarRequest :=
  {| Pacientes.criar_nome := "Maria da Silva";
     Pacientes.criar_cpf := "123.456.789-00";
     Pacientes.criar_telefone := "(47) 99999-9999";
     Pacientes.criar_endereco := "Rua das Flores, 123";
     Pacientes.criar_email := "maria@email.com";
     Pacientes.criar_data_nascimento := "15/05/90";
     Pacientes.criar_observacoes := "" |}.

Definition duas_linhas : Pacientes.tabela := [Pacientes.jose_row; Pacientes.maria_row].

Definition pedidos_exemplo : list Pacientes.pedido :=
  [Pacientes.Criar Pacientes.maria 8; Pacientes.Inativar 7;
   Pacientes.Alterar 8 Pacientes.maria_editada; Pacientes.Ativar 7;
   Pacientes.Criar Pacientes.maria 9].

(** A provider whose first request succeeds and whose later requests
    fail, and one whose second answer is a 200 that is not a key set. *)
Definition good_then_down (doc : pyval) : network :=
  fun i => match i with
           | O => Response 200 (Some doc)
           | S _ => TransportFailure ConnectError
           end.

Definition not_a_key_set : pyval := PDict [("error", PStr "not found")].

Definition good_then_keyless (doc : pyval) : network :=
  fun i => match i with
           | O => Response 200 (Some doc)
           | S _ => Response 200 (Some not_a_key_set)
           end.

(** Two calls with the same valid token, entered together. *)
Definition two_calls : list (Jose.token * Z) := [(token0, 1500); (token0, 1500)].

(** A valid token that carries an "at_hash" claim, and a key set whose key
    material the example backend does not load. *)
Definition claims_at_hash : Jose.claims :=
  {| Jose.iss := Some "https://bem-saude.us.auth0.com/";
     Jose.sub := Some "auth0|42";
     Jose.aud := Jose.AudOne "https://api.bem-saude";
     Jose.exp := Some 2000;
     Jose.nbf := None;
     Jose.iat := Some 1000;
     Jose.extra := [("at_hash", PStr "77QmUPtjPfzWtF2AnpK9RQ")] |}.

Definition doc_unusable : pyval := jwks_of [jwk "k1" "AQAB"].

(** * Properties of the sequential code *)

Lemma _obter_jwks_hit (net : network) (w : world) :
  is_None (_jwks_cache w) = false ->
  _obter_jwks net w = (Return (_jwks_cache w), w).
Proof.
  intros H. unfold _obter_jwks, bind, read_cache, ret. simpl.
  rewrite H. reflexivity.
Qed.

Lemma _obter_jwks_miss (net : network) (w : world) :
  is_None (_jwks_cache w) = true ->
  _obter_jwks net w =
  match net (requests w) with
  | TransportFailure e => (Raise e, mkWorld (_jwks_cache w) (S (requests w)))
  | Response code body =>
      if is_success code then
        match body with
        | Some j => (Return j, mkWorld j (S (requests w)))
        | None => (Raise JSONDecodeError, mkWorld (_jwks_cache w) (S (requests w)))
        end
      else (Raise (HTTPStatusError code), mkWorld (_jwks_cache w) (S (requests w)))
  end.
Proof.
  intros H.
  unfold _obter_jwks, bind, read_cache, ret, httpx_get, lift, write_cache.
  simpl. rewrite H. simpl.
  destruct (net (requests w)) as [e | code body]; [reflexivity |].
  unfold raise_for_status, response_json. simpl.
  destruct (is_success code); [| reflexivity].
  destruct body; reflexivity.
Qed.

(** A request is issued exactly when the cache reads [None]. *)
Lemma _obter_jwks_requests (net : network) (w : world) :
  requests (snd (_obter_jwks net w)) =
  if is_None (_jwks_cache w) then S (requests w) else requests w.
Proof.
  destruct (is_None (_jwks_cache w)) eqn:H.
  - rewrite (_obter_jwks_miss net w H).
    destruct (net (requests w)) as [e | code [j |]]; simpl;
      try destruct (is_success code); reflexivity.
  - rewrite (_obter_jwks_hit net w H). reflexivity.
Qed.

(** The cache is written only by a fully successful fetch. *)
Lemma _obter_jwks_cache_after (net : network) (w : world) :
  _jwks_cache (snd (_obter_jwks net w)) =
  if is_None (_jwks_cache w) then
    match fetch_ok net w with Some j => j | None => _jwks_cache w end
  else _jwks_cache w.
Proof.
  destruct (is_None (_jwks_cache w)) eqn:H.
  - rewrite (_obter_jwks_miss net w H). unfold fetch_ok.
    destruct (net (requests w)) as [e | code [j |]]; simpl;
      try destruct (is_success code); reflexivity.
  - rewrite (_obter_jwks_hit net w H). reflexivity.
Qed.

Lemma _obter_jwks_raises_keeps_cache (net : network) (w w' : world) (e : exn) :
  _obter_jwks net w = (Raise e, w') -> _jwks_cache w' = _jwks_cache w.
Proof.
  intros H. destruct (is_None (_jwks_cache w)) eqn:Hc.
  - rewrite (_obter_jwks_miss net w Hc) in H.
    destruct (net (requests w)) as [e0 | code [j |]];
      try destruct (is_success code); inversion H; reflexivity.
  - rewrite (_obter_jwks_hit net w Hc) in H. inversion H.
Qed.

Lemma find_rsa_key_skip (kid : pyval) (pre rest : list pyval) :
  forallb (kid_differs kid) pre = true ->
  find_rsa_key (pre ++ rest) kid = find_rsa_key rest kid.
Proof.
  induction pre as [| key pre IH]; simpl; intros H; [reflexivity |].
  apply andb_prop in H. destruct H as [Hk Hpre].
  unfold kid_differs in Hk.
  destruct (py_getitem key "kid") as [k | e]; [| discriminate].
  simpl. apply negb_true_iff in Hk. rewrite Hk. now apply IH.
Qed.

Lemma find_rsa_key_absent (kid : pyval) (keys : list pyval) :
  forallb (kid_differs kid) keys = true ->
  find_rsa_key keys kid = Return (PDict []).
Proof.
  intros H. rewrite <- (app_nil_r keys).
  now rewrite find_rsa_key_skip.
Qed.

Lemma find_rsa_key_first (kid : pyval) (pre : list pyval) (key : pyval) (post : list pyval) :
  forallb (kid_differs kid) pre = true ->
  kid_matches kid key = true ->
  find_rsa_key (pre ++ key :: post) kid = build_rsa_key key.
Proof.
  intros Hpre Hk. rewrite find_rsa_key_skip by assumption.
  simpl. unfold kid_matches in Hk.
  destruct (py_getitem key "kid") as [k | e]; [| discriminate].
  simpl. now rewrite Hk.
Qed.

Lemma build_rsa_key_truthy (key rsa_key : pyval) :
  build_rsa_key key = Return rsa_key -> py_truthy rsa_key = true.
Proof.
  unfold build_rsa_key, rbind.
  repeat match goal with
         | |- context [py_getitem ?k ?f] => destruct (py_getitem k f)
         end; intros H; inversion H; reflexivity.
Qed.

Section SequentialFacts.
Context {token : Type}.
Variable jwt : jwt_api token.
Variable cfg : configuracoes.

Lemma validar_token_eq (net : network) (now : Z) (tok : token) (w : world) :
  validar_token jwt cfg net now tok w =
  (outcome jwt cfg now tok (fst (_obter_jwks net w)), snd (_obter_jwks net w)).
Proof.
  unfold validar_token, try_except, bind, lift, outcome, settle, handler, translate, raise.
  destruct (_obter_jwks net w) as [[jwks | e] w']; simpl.
  - destruct (verify_with jwt cfg now tok jwks) as [p | e]; [reflexivity |].
    destruct (is_JWTError e); [reflexivity |].
    destruct (is_HTTPError e); reflexivity.
  - destruct (is_JWTError e); [reflexivity |].
    destruct (is_HTTPError e); reflexivity.
Qed.

Lemma validar_token_cached (net : network) (now : Z) (tok : token) (w : world) :
  is_None (_jwks_cache w) = false ->
  validar_token jwt cfg net now tok w =
  (outcome jwt cfg now tok (Return (_jwks_cache w)), w).
Proof.
  intros H. rewrite validar_token_eq, (_obter_jwks_hit net w H). reflexivity.
Qed.

(** The lookup part of [verify_with], once the header and the entries of
    the key set are known. *)
Lemma verify_with_lookup (now : Z) (tok : token) (jwks h kid : pyval) (keys : list pyval) :
  get_unverified_header jwt tok = Return h ->
  py_get h "kid" PNone = Return kid ->
  keys_of jwks = Return keys ->
  verify_with jwt cfg now tok jwks =
  (rsa_key <- find_rsa_key keys kid ;;
   if negb (py_truthy rsa_key) then Raise key_not_found
   else decode jwt tok rsa_key ["RS256"] (AUTH0_AUDIENCE cfg) (issuer cfg) now)%res.
Proof.
  intros Hh Hkid Hkeys. unfold verify_with. rewrite Hh. simpl. rewrite Hkid. simpl.
  unfold keys_of in Hkeys.
  destruct (py_get jwks "keys" (PList [])) as [ko | e]; simpl in *; [| discriminate].
  rewrite Hkeys. simpl.
  destruct (find_rsa_key keys kid) as [rk | e]; simpl; [| reflexivity].
  destruct (py_truthy rk); simpl; [| reflexivity].
  destruct (decode jwt tok rk ["RS256"] (AUTH0_AUDIENCE cfg) (issuer cfg) now); reflexivity.
Qed.

End SequentialFacts.

Section CacheClaims.
Context {token : Type}.
Variable jwt : jwt_api token.
Variable cfg : configuracoes.

(** C1 (as the code has it): when the key identifier of the token matches
    no entry of the key set [_obter_jwks] returns, the call is rejected
    with 401 "chave não encontrada" after a single lookup.  A request is
    issued only if nothing was cached (then exactly one, before the
    lookup); when a key set is cached the call issues no request and
    leaves the state as it was, whatever the provider would answer. *)
Theorem absent_kid_single_lookup
    (net : network) (now : Z) (tok : token) (w w' : world)
    (h kid jwks : pyval) (keys : list pyval) :
  get_unverified_header jwt tok = Return h ->
  py_get h "kid" PNone = Return kid ->
  _obter_jwks net w = (Return jwks, w') ->
  keys_of jwks = Return keys ->
  forallb (kid_differs kid) keys = true ->
  validar_token jwt cfg net now tok w = (Raise key_not_found, w')
  /\ requests w' = (if is_None (_jwks_cache w) then S (requests w) else requests w)
  /\ (is_None (_jwks_cache w) = false -> w' = w).
Proof.
  intros Hh Hkid Hfetch Hkeys Habsent. repeat split.
  - rewrite validar_token_eq, Hfetch. simpl. unfold outcome. simpl.
    rewrite (verify_with_lookup jwt cfg now tok jwks h kid keys Hh Hkid Hkeys).
    rewrite (find_rsa_key_absent kid keys Habsent). reflexivity.
  - pose proof (_obter_jwks_requests net w) as Hr.
    rewrite Hfetch in Hr. exact Hr.
  - intros Hc. rewrite (_obter_jwks_hit net w Hc) in Hfetch.
    now inversion Hfetch.
Qed.

(** C4 (as the code has it): when nothing is cached and the request fails
    with an [httpx.HTTPError] (the transport raises one, or the status is
    not a 2xx), the call raises 503 "Erro ao validar autenticação", never
    a 401, and the cache stays empty. *)
Theorem http_error_is_503
    (net : network) (now : Z) (tok : token) (w : world) :
  is_None (_jwks_cache w) = true ->
  fetch_http_error net w = true ->
  validar_token jwt cfg net now tok w =
  (Raise (HTTPException 503 "Erro ao validar autenticação"),
   mkWorld PNone (S (requests w))).
Proof.
  intros Hc Herr. rewrite validar_token_eq, (_obter_jwks_miss net w Hc).
  assert (Hnone : _jwks_cache w = PNone)
    by (destruct (_jwks_cache w); try discriminate; reflexivity).
  rewrite Hnone. unfold fetch_http_error in Herr.
  destruct (net (requests w)) as [e | code body].
  - simpl. unfold outcome, settle, translate. simpl.
    destruct e; simpl in Herr; try discriminate; reflexivity.
  - apply negb_true_iff in Herr. rewrite Herr. reflexivity.
Qed.

(** C9: a key-set document that is a JSON object without a "keys" member
    is an empty key set: every token whose header can be read is rejected
    with 401 "chave não encontrada", whether the document was just
    fetched or comes from the cache. *)
Theorem missing_keys_is_empty_key_set
    (net : network) (now : Z) (tok : token) (w w' : world)
    (d h : list (string * pyval)) :
  _obter_jwks net w = (Return (PDict d), w') ->
  dict_get d "keys" = None ->
  get_unverified_header jwt tok = Return (PDict h) ->
  validar_token jwt cfg net now tok w = (Raise key_not_found, w').
Proof.
  intros Hfetch Hkeys Hh.
  rewrite validar_token_eq, Hfetch. simpl. unfold outcome. simpl.
  assert (Hk : keys_of (PDict d) = Return []).
  { unfold keys_of. simpl. now rewrite Hkeys. }
  assert (Hkid : exists kid, py_get (PDict h) "kid" PNone = Return kid).
  { simpl. destruct (dict_get h "kid"); eauto. }
  destruct Hkid as [kid Hkid].
  rewrite (verify_with_lookup jwt cfg now tok (PDict d) (PDict h) kid [] Hh Hkid Hk).
  reflexivity.
Qed.

Lemma validar_token_first_match
    (net : network) (now : Z) (tok : token) (w w' : world)
    (d h : list (string * pyval)) (kid : pyval)
    (pre : list pyval) (key : pyval) (post : list pyval) :
  _obter_jwks net w = (Return (PDict d), w') ->
  dict_get d "keys" = Some (PList (pre ++ key :: post)) ->
  get_unverified_header jwt tok = Return (PDict h) ->
  py_get (PDict h) "kid" PNone = Return kid ->
  forallb (kid_differs kid) pre = true ->
  kid_matches kid key = true ->
  validar_token jwt cfg net now tok w =
  (settle (rsa_key <- build_rsa_key key ;;
           decode jwt tok rsa_key ["RS256"] (AUTH0_AUDIENCE cfg) (issuer cfg) now)%res,
   w').
Proof.
  intros Hfetch Hkeys Hh Hkid Hpre Hkey.
  rewrite validar_token_eq, Hfetch. simpl. unfold outcome. simpl.
  assert (Hk : keys_of (PDict d) = Return (pre ++ key :: post)%list).
  { unfold keys_of. simpl. now rewrite Hkeys. }
  rewrite (verify_with_lookup jwt cfg now tok (PDict d) (PDict h) kid _ Hh Hkid Hk).
  rewrite (find_rsa_key_first kid pre key post Hpre Hkey).
  destruct (build_rsa_key key) as [rk | e] eqn:Hb; simpl; [| reflexivity].
  now rewrite (build_rsa_key_truthy key rk Hb).
Qed.

Lemma build_rsa_key_members (k : list (string * pyval)) (vkty vkid vuse vn ve : pyval) :
  dict_get k "kty" = Some vkty ->
  dict_get k "kid" = Some vkid ->
  dict_get k "use" = Some vuse ->
  dict_get k "n" = Some vn ->
  dict_get k "e" = Some ve ->
  build_rsa_key (PDict k) =
  Return (PDict [("kty", vkty); ("kid", vkid); ("use", vuse); ("n", vn); ("e", ve)]).
Proof.
  intros Hkty Hkid Huse Hn He. unfold build_rsa_key. simpl.
  now rewrite Hkty, Hkid, Huse, Hn, He.
Qed.

(** The call, once the key set is at hand and the token's kid resolves to
    the entry [PDict k]: [jwt.decode] is given exactly the five members of
    that entry. *)
Lemma validar_token_resolved
    (net : network) (now : Z) (tok : token) (w w' : world)
    (d h k : list (string * pyval)) (kid vkty vkid vuse vn ve : pyval)
    (pre post : list pyval) :
  _obter_jwks net w = (Return (PDict d), w') ->
  dict_get d "keys" = Some (PList (pre ++ PDict k :: post)) ->
  get_unverified_header jwt tok = Return (PDict h) ->
  py_get (PDict h) "kid" PNone = Return kid ->
  forallb (kid_differs kid) pre = true ->
  dict_get k "kid" = Some vkid ->
  py_eq vkid kid = true ->
  dict_get k "kty" = Some vkty ->
  dict_get k "use" = Some vuse ->
  dict_get k "n" = Some vn ->
  dict_get k "e" = Some ve ->
  validar_token jwt cfg net now tok w =
  (settle (decode jwt tok
             (PDict [("kty", vkty); ("kid", vkid); ("use", vuse); ("n", vn); ("e", ve)])
             ["RS256"] (AUTH0_AUDIENCE cfg) (issuer cfg) now),
   w').
Proof.
  intros Hfetch Hkeys Hh Hkid Hpre Hk Heq Hkty Huse Hn He.
  assert (Hm : kid_matches kid (PDict k) = true)
    by (unfold kid_matches; simpl; now rewrite Hk).
  rewrite (validar_token_first_match net now tok w w' d h kid pre (PDict k) post
             Hfetch Hkeys Hh Hkid Hpre Hm).
  rewrite (build_rsa_key_members k vkty vkid vuse vn ve Hkty Hk Huse Hn He).
  reflexivity.
Qed.

(** C10: in a cached key set whose entries may repeat a kid, the loop
    stops at the first entry whose "kid" equals the one the token declares:
    the key handed to [jwt.decode] is made of that entry's own "kty",
    "kid", "use", "n" and "e", and the result is the same whatever entries
    follow it. *)
Theorem first_matching_key_wins
    (net : network) (now : Z) (tok : token) (r : nat)
    (d d' h k : list (string * pyval)) (kid vkty vkid vuse vn ve : pyval)
    (pre post post' : list pyval) :
  dict_get d "keys" = Some (PList (pre ++ PDict k :: post)) ->
  dict_get d' "keys" = Some (PList (pre ++ PDict k :: post')) ->
  get_unverified_header jwt tok = Return (PDict h) ->
  py_get (PDict h) "kid" PNone = Return kid ->
  forallb (kid_differs kid) pre = true ->
  dict_get k "kid" = Some vkid ->
  py_eq vkid kid = true ->
  dict_get k "kty" = Some vkty ->
  dict_get k "use" = Some vuse ->
  dict_get k "n" = Some vn ->
  dict_get k "e" = Some ve ->
  fst (validar_token jwt cfg net now tok (mkWorld (PDict d) r)) =
  settle (decode jwt tok
            (PDict [("kty", vkty); ("kid", vkid); ("use", vuse); ("n", vn); ("e", ve)])
            ["RS256"] (AUTH0_AUDIENCE cfg) (issuer cfg) now)
  /\ fst (validar_token jwt cfg net now tok (mkWorld (PDict d') r)) =
     fst (validar_token jwt cfg net now tok (mkWorld (PDict d) r)).
Proof.
  intros Hkeys Hkeys' Hh Hkid Hpre Hk Heq Hkty Huse Hn He.
  assert (Hhit : forall d0, _obter_jwks net (mkWorld (PDict d0) r)
                            = (Return (PDict d0), mkWorld (PDict d0) r)).
  { intros d0. now rewrite _obter_jwks_hit. }
  rewrite (validar_token_resolved net now tok _ _ d h k kid vkty vkid vuse vn ve pre post
             (Hhit d) Hkeys Hh Hkid Hpre Hk Heq Hkty Huse Hn He).
  rewrite (validar_token_resolved net now tok _ _ d' h k kid vkty vkid vuse vn ve pre post'
             (Hhit d') Hkeys' Hh Hkid Hpre Hk Heq Hkty Huse Hn He).
  split; reflexivity.
Qed.

End CacheClaims.

(** * Properties that depend on the JWT library *)

Lemma py_eq_PStr (a : pyval) (s : string) :
  py_eq a (PStr s) = true <-> a = PStr s.
Proof.
  destruct a; simpl; split; intros H; try discriminate.
  - apply String.eqb_eq in H. now subst.
  - inversion H. apply String.eqb_refl.
Qed.

Lemma not_RS256_not_allowed (h : list (string * pyval)) :
  header_alg h <> PStr "RS256" ->
  existsb (fun a => py_eq (header_alg h) (PStr a)) ["RS256"] = false.
Proof.
  intros H. simpl. rewrite orb_false_r.
  destruct (py_eq (header_alg h) (PStr "RS256")) eqn:E; [| reflexivity].
  apply py_eq_PStr in E. contradiction.
Qed.

(** The reference model honours the allow-list. *)
Lemma Jose_honours_allow_list : honours_allow_list Jose.api.
Proof.
  intros tok h key algorithms audience issuer now Hh Hnot.
  destruct tok as [| header body sig]; simpl in Hh; [discriminate |].
  inversion Hh; subst h. simpl. unfold header_alg, Jose.alg_allowed in *.
  destruct (py_truthy match dict_get header "alg" with
                      | Some a => a | None => PNone end); simpl.
  - rewrite Hnot. simpl. eexists; split; reflexivity.
  - eexists; split; reflexivity.
Qed.

Section AlgorithmClaim.
Context {token : Type}.
Variable jwt : jwt_api token.
Variable cfg : configuracoes.
Hypothesis allow_list : honours_allow_list jwt.

Lemma verify_with_rejects_alg (now : Z) (tok : token) (jwks : pyval)
    (h : list (string * pyval)) :
  get_unverified_header jwt tok = Return (PDict h) ->
  header_alg h <> PStr "RS256" ->
  exists e, verify_with jwt cfg now tok jwks = Raise e.
Proof.
  intros Hh Halg. unfold verify_with. rewrite Hh. simpl.
  destruct (dict_get h "kid") as [kid |]; simpl;
    (destruct (py_get jwks "keys" (PList [])) as [ko | e]; simpl; [| eauto];
     destruct (py_iter ko) as [keys | e]; simpl; [| eauto];
     match goal with
     | |- context [find_rsa_key keys ?k] =>
         destruct (find_rsa_key keys k) as [rk | e]; simpl; [| eauto]
     end;
     destruct (py_truthy rk); simpl; [| eauto];
     destruct (allow_list tok h rk ["RS256"] (AUTH0_AUDIENCE cfg) (issuer cfg) now
                 Hh (not_RS256_not_allowed h Halg)) as [e [He _]];
     rewrite He; simpl; eauto).
Qed.

(** C5 (as the code has it): a token whose header declares an algorithm
    other than RS256 is never accepted: the call raises.  The algorithm
    is checked by [jwt.decode], after the key has been looked up: once a
    key is found the rejection is the 401 "Token inválido ou expirado"
    raised for every [JWTError]; there is no rejection specific to the
    algorithm. *)
Theorem other_algorithm_never_accepted
    (net : network) (now : Z) (tok : token) (w : world)
    (h : list (string * pyval)) :
  get_unverified_header jwt tok = Return (PDict h) ->
  header_alg h <> PStr "RS256" ->
  (exists e, fst (validar_token jwt cfg net now tok w) = Raise e)
  /\ (forall (jwks kid rsa_key : pyval) (w' : world) (keys : list pyval),
        _obter_jwks net w = (Return jwks, w') ->
        py_get (PDict h) "kid" PNone = Return kid ->
        keys_of jwks = Return keys ->
        find_rsa_key keys kid = Return rsa_key ->
        py_truthy rsa_key = true ->
        validar_token jwt cfg net now tok w = (Raise invalid_or_expired, w')).
Proof.
  intros Hh Halg. split.
  - rewrite validar_token_eq. simpl. unfold outcome.
    destruct (fst (_obter_jwks net w)) as [jwks | e]; simpl; [| eauto].
    destruct (verify_with_rejects_alg now tok jwks h Hh Halg) as [e He].
    rewrite He. simpl. eauto.
  - intros jwks kid rk w' keys Hfetch Hkid Hkeys Hfind Htruthy.
    rewrite validar_token_eq, Hfetch. simpl. unfold outcome. simpl.
    rewrite (verify_with_lookup jwt cfg now tok jwks (PDict h) kid keys Hh Hkid Hkeys).
    rewrite Hfind. simpl. rewrite Htruthy. simpl.
    destruct (allow_list tok h rk ["RS256"] (AUTH0_AUDIENCE cfg) (issuer cfg) now
                Hh (not_RS256_not_allowed h Halg)) as [e [He Hjwt]].
    rewrite He. simpl. unfold translate. now rewrite Hjwt.
Qed.

End AlgorithmClaim.

Lemma is_rsa_jwk_build (key kid : pyval) (n e : string) :
  is_rsa_jwk key kid n e = true ->
  kid_matches kid key = true
  /\ exists k u,
       build_rsa_key key =
       Return (PDict [("kty", PStr "RSA"); ("kid", k); ("use", u);
                      ("n", PStr n); ("e", PStr e)]).
Proof.
  unfold is_rsa_jwk. destruct key as [| | | | | k]; try discriminate.
  intros H. repeat (apply andb_prop in H; destruct H as [H ?]).
  split; [assumption |].
  unfold kid_matches in H. simpl in H.
  unfold Jose.member_is, has_key in *.
  unfold build_rsa_key. simpl.
  destruct (dict_get k "kty") as [vt |]; [| discriminate].
  destruct (dict_get k "kid") as [vk |]; [| discriminate].
  destruct (dict_get k "use") as [vu |]; [| discriminate].
  destruct (dict_get k "n") as [vn |]; [| discriminate].
  destruct (dict_get k "e") as [ve |]; [| discriminate].
  repeat match goal with
         | Hq : py_eq _ (PStr _) = true |- _ => apply py_eq_PStr in Hq; subst
         end.
  simpl. eauto.
Qed.

Lemma decode_signed (loads : Jose.backend) (header : list (string * pyval))
    (body : Jose.claims) (k u : pyval) (n e audience iss : string) (now : Z) :
  dict_get header "alg" = Some (PStr "RS256") ->
  loads (PStr n) (PStr e) = Jose.Usable ->
  decode (Jose.model loads) (Jose.Compact header body (Jose.SignedBy "RS256" n e))
    (PDict [("kty", PStr "RSA"); ("kid", k); ("use", u); ("n", PStr n); ("e", PStr e)])
    ["RS256"] audience iss now =
  (_ <- Jose.validate_claims Jose.default_leeway audience iss now body ;;
   Return (Jose.claims_dict body))%res.
Proof.
  intros Halg Hload. simpl. rewrite Halg. simpl.
  unfold Jose.construct, Jose.member_is. simpl. rewrite Hload. simpl.
  rewrite !String.eqb_refl. reflexivity.
Qed.


Lemma validate_nbf_ok (now : Z) (c : Jose.claims) :
  already_valid now c = true -> Jose.validate_nbf Jose.default_leeway now c = Return tt.
Proof.
  unfold Jose.validate_nbf, already_valid, Jose.default_leeway.
  destruct (Jose.nbf c) as [t |]; [| reflexivity].
  intros H. apply Z.leb_le in H.
  now replace (now + 0 <? t) with false by (symmetry; apply Z.ltb_ge; lia).
Qed.

Lemma validate_exp_ok (now : Z) (c : Jose.claims) :
  not_expired now c = true -> Jose.validate_exp Jose.default_leeway now c = Return tt.
Proof.
  unfold Jose.validate_exp, not_expired, Jose.default_leeway.
  destruct (Jose.exp c) as [t |]; [| reflexivity].
  intros H. apply Z.leb_le in H.
  now replace (t <? now - 0) with false by (symmetry; apply Z.ltb_ge; lia).
Qed.

Lemma validate_aud_ok (audience : string) (c : Jose.claims) :
  aud_contains (Jose.aud c) audience = true -> Jose.validate_aud audience c = Return tt.
Proof.
  unfold Jose.validate_aud, aud_contains.
  destruct (Jose.aud c); try discriminate; intros H; now rewrite H.
Qed.

Lemma validate_iss_ok (iss : string) (c : Jose.claims) :
  Jose.iss c = Some iss -> Jose.validate_iss iss c = Return tt.
Proof.
  unfold Jose.validate_iss. intros H. now rewrite H, String.eqb_refl.
Qed.

Lemma validate_others_ok (c : Jose.claims) :
  accepts_other_claims c = true ->
  Jose.validate_jti c = Return tt /\ Jose.validate_at_hash c = Return tt.
Proof.
  unfold accepts_other_claims, Jose.validate_jti, Jose.validate_at_hash, has_key.
  intros H. apply andb_prop in H. destruct H as [Hjti Hat]. split.
  - destruct (dict_get (Jose.other_claims c) "jti") as [v |]; [| reflexivity].
    destruct v; try discriminate; reflexivity.
  - destruct (dict_get (Jose.other_claims c) "at_hash"); [discriminate | reflexivity].
Qed.

Lemma validate_claims_ok (audience iss : string) (now : Z) (c : Jose.claims) :
  Jose.iss c = Some iss ->
  aud_contains (Jose.aud c) audience = true ->
  not_expired now c = true ->
  already_valid now c = true ->
  accepts_other_claims c = true ->
  Jose.validate_claims Jose.default_leeway audience iss now c = Return tt.
Proof.
  intros Hiss Haud Hexp Hnbf Hoth. unfold Jose.validate_claims.
  destruct (validate_others_ok c Hoth) as [Hjti Hat].
  rewrite (validate_nbf_ok now c Hnbf), (validate_exp_ok now c Hexp),
    (validate_aud_ok audience c Haud), (validate_iss_ok iss c Hiss), Hjti, Hat.
  reflexivity.
Qed.

(** Every way [validate_claims] fails is a [JWTError]. *)
Lemma validate_claims_raises_JWTError (leeway : Z) (audience iss : string) (now : Z)
    (c : Jose.claims) (e : exn) :
  Jose.validate_claims leeway audience iss now c = Raise e -> is_JWTError e = true.
Proof.
  unfold Jose.validate_claims, Jose.validate_nbf, Jose.validate_exp,
    Jose.validate_aud, Jose.validate_iss, Jose.validate_jti, Jose.validate_at_hash.
  destruct (Jose.nbf c) as [t |]; [destruct (now + leeway <? t) |]; simpl;
    try (intros H; inversion H; reflexivity);
    (destruct (Jose.exp c) as [t' |]; [destruct (t' <? now - leeway) |]; simpl;
     try (intros H; inversion H; reflexivity);
     (destruct (Jose.aud c) as [| a | l];
      [| destruct (String.eqb audience a) | destruct (existsb (String.eqb audience) l)];
      simpl; try (intros H; inversion H; reflexivity);
      (destruct (Jose.iss c) as [i |]; [destruct (String.eqb i iss) |]; simpl;
       try (intros H; inversion H; reflexivity);
       (destruct (dict_get (Jose.other_claims c) "jti") as [v |]; [destruct v |]; simpl;
        try (intros H; inversion H; reflexivity);
        (destruct (dict_get (Jose.other_claims c) "at_hash");
         intros H; inversion H; reflexivity))))).
Qed.

Section ValidToken.
Variable loads : Jose.backend.
Variable cfg : configuracoes.
Variables (net : network) (now : Z) (w w' : world).
Variables (d header : list (string * pyval)) (kid : pyval).
Variables (pre : list pyval) (key : pyval) (post : list pyval).
Variables (n e : string).

(** The key set in force, the entry the token's kid resolves to, its key
    material as the backend sees it, and the header of the token. *)
Hypothesis key_set : _obter_jwks net w = (Return (PDict d), w').
Hypothesis entries : dict_get d "keys" = Some (PList (pre ++ key :: post)).
Hypothesis declared_alg : dict_get header "alg" = Some (PStr "RS256").
Hypothesis declared_kid : py_get (PDict header) "kid" PNone = Return kid.
Hypothesis earlier_differ : forallb (kid_differs kid) pre = true.
Hypothesis signing_key : is_rsa_jwk key kid n e = true.
Hypothesis loadable : loads (PStr n) (PStr e) = Jose.Usable.

Lemma signed_token_outcome (body : Jose.claims) :
  validar_token (Jose.model loads) cfg net now
    (Jose.Compact header body (Jose.SignedBy "RS256" n e)) w =
  (settle (_ <- Jose.validate_claims Jose.default_leeway
                  (AUTH0_AUDIENCE cfg) (issuer cfg) now body ;;
           Return (Jose.claims_dict body))%res, w').
Proof.
  destruct (is_rsa_jwk_build key kid n e signing_key) as [Hm [k [u Hb]]].
  rewrite (validar_token_first_match (Jose.model loads) cfg net now
             (Jose.Compact header body (Jose.SignedBy "RS256" n e)) w w' d header kid
             pre key post key_set entries eq_refl declared_kid earlier_differ Hm).
  rewrite Hb. cbn [rbind].
  now rewrite (decode_signed loads header body k u n e _ _ now declared_alg loadable).
Qed.


Lemma rejected_claims_outcome (body : Jose.claims) (err : exn) :
  Jose.validate_claims Jose.default_leeway (AUTH0_AUDIENCE cfg) (issuer cfg) now body
    = Raise err ->
  validar_token (Jose.model loads) cfg net now
    (Jose.Compact header body (Jose.SignedBy "RS256" n e)) w =
  (Raise invalid_or_expired, w').
Proof.
  intros H. rewrite signed_token_outcome, H. simpl.
  unfold translate. now rewrite (validate_claims_raises_JWTError _ _ _ _ _ _ H).
Qed.



(** C8 (as the code has it): no clock-skew tolerance is configured or
    passed to the decoder.  A well-formed token with expiry [T] that is
    signed by the resolved key, whose material the backend loads, and
    names the configured issuer and audience is accepted exactly at the
    clock readings [now <= T] at which
    it is already valid (no not-before time later than the clock); at
    every later reading it is rejected with 401 "Token inválido ou
    expirado", which is also the rejection of a token not yet valid and of
    every other [JWTError].  The issued-at claim, whatever its value,
    takes no part. *)
Theorem expiry_boundary (body : Jose.claims) (T : Z) :
  Jose.iss body = Some (issuer cfg) ->
  aud_contains (Jose.aud body) (AUTH0_AUDIENCE cfg) = true ->
  accepts_other_claims body = true ->
  Jose.exp body = Some T ->
  validar_token (Jose.model loads) cfg net now
    (Jose.Compact header body (Jose.SignedBy "RS256" n e)) w =
  (if already_valid now body && (now <=? T)
   then Return (Jose.claims_dict body)
   else Raise invalid_or_expired, w').
Proof.
  intros Hiss Haud Hoth Hexp.
  destruct (already_valid now body) eqn:Hnbf; simpl.
  - destruct (now <=? T) eqn:Hle.
    + assert (Hlive : not_expired now body = true)
        by (unfold not_expired; now rewrite Hexp).
      rewrite signed_token_outcome.
      now rewrite (validate_claims_ok _ _ _ _ Hiss Haud Hlive Hnbf Hoth).
    + apply rejected_claims_outcome
        with (err := ExpiredSignatureError "Signature has expired.").
      unfold Jose.validate_claims.
      rewrite (validate_nbf_ok now body Hnbf). cbn [rbind].
      unfold Jose.validate_exp, Jose.default_leeway. rewrite Hexp.
      apply Z.leb_gt in Hle.
      now replace (T <? now - 0) with true by (symmetry; apply Z.ltb_lt; lia).
  - apply rejected_claims_outcome
      with (err := JWTClaimsError "The token is not yet valid (nbf)").
    unfold Jose.validate_claims, Jose.validate_nbf, already_valid,
      Jose.default_leeway in *.
    destruct (Jose.nbf body) as [t |]; [| discriminate].
    apply Z.leb_gt in Hnbf.
    now replace (now + 0 <? t) with true by (symmetry; apply Z.ltb_lt; lia).
Qed.

End ValidToken.

(** * Properties of calls in progress at the same time *)

Section InterleavingFacts.
Open Scope list_scope.
Context {token : Type}.
Variable jwt : jwt_api token.
Variable cfg : configuracoes.
Variable net : network.

Local Abbreviation call_step := (call_step jwt cfg net).
Local Abbreviation step_nth := (step_nth jwt cfg net).
Local Abbreviation run := (run jwt cfg net).
Local Abbreviation sweep := (sweep jwt cfg net).

(** A call that takes its steps with no other call in between does what
    [validar_token] does. *)
Lemma call_alone (c : call token) (w : world) :
  call_pc c = AtEntry ->
  let (c1, w1) := call_step c w in
  let (c2, w2) := call_step c1 w1 in
  let (c3, w3) := call_step c2 w2 in
  (call_pc c3, w3) =
  (Finished (fst (validar_token jwt cfg net (call_now c) (call_token c) w)),
   snd (validar_token jwt cfg net (call_now c) (call_token c) w)).
Proof.
  intros Hpc. rewrite validar_token_eq. unfold call_step at 1. rewrite Hpc.
  destruct (is_None (_jwks_cache w)) eqn:Hc; simpl.
  - rewrite (_obter_jwks_miss net w Hc).
    unfold call_step, bind, httpx_get, lift, raise_for_status, response_json,
      write_cache, finish, at_pc. simpl.
    destruct (net (requests w)) as [e | code body]; simpl; [reflexivity |].
    destruct (is_success code); simpl; [| reflexivity].
    destruct body as [j |]; reflexivity.
  - rewrite (_obter_jwks_hit net w Hc). reflexivity.
Qed.

Lemma call_step_budget (c : call token) (w : world) :
  (requests (snd (call_step c w)) + may_request (fst (call_step c w))
   <= requests w + may_request c)%nat.
Proof.
  unfold call_step, may_request.
  destruct (call_pc c) as [| | j | r] eqn:Hpc; simpl.
  - destruct (is_None (_jwks_cache w)); simpl; lia.
  - unfold bind, httpx_get, lift, raise_for_status, response_json. simpl.
    destruct (net (requests w)) as [e | code body]; simpl; [lia |].
    destruct (is_success code); simpl; [| lia].
    destruct body; simpl; lia.
  - lia.
  - rewrite Hpc. lia.
Qed.

Lemma step_nth_budget (i : nat) (cs : list (call token)) (w : world) :
  (requests (snd (step_nth i cs w)) + pending (fst (step_nth i cs w))
   <= requests w + pending cs)%nat.
Proof.
  revert i w. induction cs as [| c rest IH]; intros i w; simpl; [lia |].
  destruct i as [| i'].
  - pose proof (call_step_budget c w) as H.
    destruct (call_step c w) as [c' w1]. unfold pending in *. simpl in *. lia.
  - specialize (IH i' w).
    destruct (step_nth i' rest w) as [rest' w1]. unfold pending in *. simpl in *. lia.
Qed.

Lemma run_budget (schedule : list nat) (cs : list (call token)) (w : world) :
  (requests (snd (run schedule cs w)) + pending (fst (run schedule cs w))
   <= requests w + pending cs)%nat.
Proof.
  revert cs w. induction schedule as [| i later IH]; intros cs w; simpl; [lia |].
  pose proof (step_nth_budget i cs w) as H.
  destruct (step_nth i cs w) as [cs' w1]. simpl in H.
  specialize (IH cs' w1). lia.
Qed.

Lemma pending_entered (inputs : list (token * Z)) :
  pending (entered inputs) = List.length inputs.
Proof.
  unfold pending, entered. induction inputs as [| i rest IH]; simpl; [reflexivity |].
  now rewrite IH.
Qed.

Lemma step_nth_app (done : list (call token)) (c : call token)
    (rest : list (call token)) (w : world) :
  step_nth (List.length done) (done ++ c :: rest) w =
  (done ++ fst (call_step c w) :: rest, snd (call_step c w)).
Proof.
  induction done as [| c0 done IH]; simpl.
  - now destruct (call_step c w).
  - now rewrite IH.
Qed.

Lemma run_sweep (cs done : list (call token)) (w : world) :
  run (seq (List.length done) (List.length cs)) (done ++ cs) w =
  (done ++ fst (sweep cs w), snd (sweep cs w)).
Proof.
  revert done w. induction cs as [| c rest IH]; intros done w; simpl.
  - reflexivity.
  - rewrite step_nth_app.
    destruct (call_step c w) as [c' w1] eqn:Hc. simpl.
    specialize (IH (done ++ [c']) w1).
    rewrite List.length_app in IH. simpl in IH.
    replace (List.length done + 1)%nat with (S (List.length done)) in IH by lia.
    rewrite <- app_assoc in IH. simpl in IH. rewrite IH.
    destruct (sweep rest w1) as [rest' w2]. simpl.
    now rewrite <- app_assoc.
Qed.

Lemma run_app (s1 s2 : list nat) (cs : list (call token)) (w : world) :
  run (s1 ++ s2) cs w = run s2 (fst (run s1 cs w)) (snd (run s1 cs w)).
Proof.
  revert cs w. induction s1 as [| i s1 IH]; intros cs w; simpl; [reflexivity |].
  destruct (step_nth i cs w) as [cs' w1]. apply IH.
Qed.

(** First sweep on an empty cache: every call reads [None] and moves on to
    the request; the state is untouched. *)
Lemma sweep_entered (inputs : list (token * Z)) (w : world) :
  is_None (_jwks_cache w) = true ->
  sweep (entered inputs) w =
  (map (fun i => mkCall (fst i) (snd i) AtRequest) inputs, w).
Proof.
  intros Hc. induction inputs as [| i rest IH]; simpl; [reflexivity |].
  unfold call_step at 1. simpl. rewrite Hc. simpl.
  rewrite IH. reflexivity.
Qed.

(** Second sweep: every call issues its own request. *)
Lemma sweep_requests (inputs : list (token * Z)) (w : world) :
  requests (snd (sweep (map (fun i => mkCall (fst i) (snd i) AtRequest) inputs) w))
  = (requests w + List.length inputs)%nat.
Proof.
  revert w. induction inputs as [| i rest IH]; intros w; simpl; [lia |].
  unfold call_step at 1. simpl.
  unfold bind, httpx_get, lift, raise_for_status, response_json. simpl.
  set (w1 := mkWorld (_jwks_cache w) (S (requests w))).
  assert (Hstep : forall (c' : call token) (w' : world),
             requests w' = S (requests w) ->
             requests (snd (let (rest', w2) :=
               sweep (map (fun i => mkCall (fst i) (snd i) AtRequest) rest) w'
               in (c' :: rest', w2))) = (requests w + S (List.length rest))%nat).
  { intros c' w' Hw'. specialize (IH w').
    destruct (sweep (map (fun i => mkCall (fst i) (snd i) AtRequest) rest) w')
      as [rest' w2]. simpl in *. lia. }
  destruct (net (requests w)) as [e | code body]; simpl.
  - now apply Hstep.
  - destruct (is_success code); simpl; [| now apply Hstep].
    destruct body as [j |]; simpl; now apply Hstep.
Qed.

(** C2 (as the code has it): the module has no lock and no record of a
    fetch in flight.  Of the calls that start together on an empty cache,
    each one that reads the cache before another has stored a key set
    issues its own request and goes on with the outcome of that request:
    under every schedule the number of requests is at most the number of
    calls, and under the schedule in which all calls read the cache before
    any proceeds it is exactly the number of calls. *)
Theorem concurrent_misses_not_coalesced (inputs : list (token * Z)) (w : world) :
  is_None (_jwks_cache w) = true ->
  (forall schedule : list nat,
     (requests (snd (run schedule (entered inputs) w))
      <= requests w + List.length inputs)%nat)
  /\ requests (snd (run (lockstep (List.length inputs)) (entered inputs) w))
     = (requests w + List.length inputs)%nat.
Proof.
  intros Hc. split.
  - intros schedule.
    pose proof (run_budget schedule (entered inputs) w) as H.
    rewrite pending_entered in H. lia.
  - unfold lockstep. rewrite run_app.
    assert (Hlen : List.length (entered inputs) = List.length inputs)
      by (unfold entered; apply List.length_map).
    pose proof (run_sweep (entered inputs) [] w) as H1.
    simpl in H1. rewrite Hlen in H1. rewrite H1.
    rewrite (sweep_entered inputs w Hc). simpl.
    pose proof (run_sweep (map (fun i => mkCall (fst i) (snd i) AtRequest) inputs) [] w) as H2.
    simpl in H2. rewrite List.length_map in H2. rewrite H2. simpl.
    apply sweep_requests.
Qed.

End InterleavingFacts.

(** * Evaluations: the claims that fail on the code, and instances of the theorems *)

(** C1 fails on the code: the provider has published key "k2", the process
    still holds the key set fetched before; a valid token signed with "k2"
    is rejected with 401 and no request is made, although the same call
    with nothing cached fetches the new key set and accepts the token. *)
Lemma rotated_key_rejected_without_refetch :
  validar_token Jose.api cfg0 (serving doc2) 1500 (token_for "k2" "n2" claims0) (cached doc1)
  = (Raise key_not_found, cached doc1)
  /\ requests (snd (validar_token Jose.api cfg0 (serving doc2) 1500
                      (token_for "k2" "n2" claims0) (cached doc1)))
     <> S (requests (cached doc1))
  /\ fst (validar_token Jose.api cfg0 (serving doc2) 1500
            (token_for "k2" "n2" claims0) initial_world)
     = Return (Jose.claims_dict claims0).
Proof.
  repeat split; try (vm_compute; reflexivity).
  vm_compute. discriminate.
Qed.

Lemma absent_kid_single_lookup_witness :
  validar_token Jose.api cfg0 (serving doc2) 1500 (token_for "k2" "n2" claims0) (cached doc1)
  = (Raise key_not_found, cached doc1)
  /\ requests (cached doc1) = 1%nat
  /\ cached doc1 = cached doc1.
Proof.
  destruct (absent_kid_single_lookup Jose.api cfg0 (serving doc2) 1500
              (token_for "k2" "n2" claims0) (cached doc1) (cached doc1)
              (PDict (header_of "RS256" "k2")) (PStr "k2") doc1 [jwk "k1" "n1"]
              eq_refl eq_refl eq_refl eq_refl eq_refl) as [Hcall [Hreq Hsame]].
  split; [exact Hcall | split; [exact Hreq | exact (Hsame eq_refl)]].
Defined.

(** C2 fails on the code: two calls start on an empty cache, the first
    request fails and the second succeeds.  Both calls issue a request;
    the first call raises 503 and the second returns the claims. *)
Lemma two_misses_two_requests :
  let r := run Jose.api cfg0 (flaky doc1) [0; 1; 0; 1; 1]%nat
             (entered [(token0, 1500); (token0, 1500)]) initial_world in
  requests (snd r) = 2%nat
  /\ requests (snd r) <> 1%nat
  /\ results (fst r) =
     [Some (Raise auth_unavailable); Some (Return (Jose.claims_dict claims0))].
Proof.
  repeat split; try (vm_compute; reflexivity).
  vm_compute. discriminate.
Qed.

Lemma concurrent_misses_not_coalesced_witness :
  (forall schedule : list nat,
     (requests (snd (run Jose.api cfg0 (serving doc1) schedule
                       (entered three_calls) initial_world))
      <= requests initial_world + List.length three_calls)%nat)
  /\ requests (snd (run Jose.api cfg0 (serving doc1) (lockstep (List.length three_calls))
                      (entered three_calls) initial_world))
     = (requests initial_world + List.length three_calls)%nat.
Proof.
  apply (concurrent_misses_not_coalesced Jose.api cfg0 (serving doc1)
           three_calls initial_world).
  reflexivity.
Defined.

(** C4 fails on the code: the provider answers 200 with a JSON object that
    is not a key set; the call raises 401, not 503. *)
Lemma keyless_document_is_unauthorized :
  validar_token Jose.api cfg0 (serving (PDict [("error", PStr "not found")])) 1500
    token0 initial_world
  = (Raise key_not_found, mkWorld (PDict [("error", PStr "not found")]) 1)
  /\ key_not_found <> auth_unavailable.
Proof.
  split; [vm_compute; reflexivity | discriminate].
Qed.

(** A body that is not JSON: [response.json()] raises [JSONDecodeError],
    which neither [except] clause catches. *)
Example non_json_body_escapes :
  validar_token Jose.api cfg0 (fun _ => Response 200 None) 1500 token0 initial_world
  = (Raise JSONDecodeError, mkWorld PNone 1).
Proof. vm_compute. reflexivity. Qed.

(** A key-set entry without a "kid" member: the subscript raises
    [KeyError], which neither [except] clause catches. *)
Example entry_without_kid_escapes :
  fst (validar_token Jose.api cfg0
         (serving (jwks_of [PDict [("kty", PStr "RSA"); ("n", PStr "n1"); ("e", PStr "AQAB")]]))
         1500 token0 initial_world)
  = Raise (KeyError "kid").
Proof. vm_compute. reflexivity. Qed.

Lemma http_error_is_503_witness :
  validar_token Jose.api cfg0 (fun _ => Response 502 None) 1500 token0 initial_world
  = (Raise (HTTPException 503 "Erro ao validar autenticação"), mkWorld PNone 1).
Proof.
  apply (http_error_is_503 Jose.api cfg0 (fun _ => Response 502 None) 1500 token0
           initial_world); reflexivity.
Defined.

(** C5 fails on the code: a token that declares "none" is rejected, but
    not as an unsupported algorithm.  With nothing cached and the provider
    unreachable the call raises 503; with the key cached it raises the
    exception it raises for a broken RS256 signature, so no reading of the
    outcome can name the algorithm as the cause. *)
Lemma unsupported_algorithm_not_classified :
  fst (validar_token Jose.api cfg0 unreachable 1500 none_token initial_world)
  = Raise (HTTPException 503 "Erro ao validar autenticação")
  /\ fst (validar_token Jose.api cfg0 unreachable 1500 none_token (cached doc1))
     = fst (validar_token Jose.api cfg0 unreachable 1500 forged_token (cached doc1))
  /\ ~ (exists classify : result pyval -> VerificationFailure,
          classify (fst (validar_token Jose.api cfg0 unreachable 1500 none_token
                           (cached doc1))) = UnsupportedAlgorithm
          /\ classify (fst (validar_token Jose.api cfg0 unreachable 1500 forged_token
                              (cached doc1))) = InvalidSignature).
Proof.
  repeat split; try (vm_compute; reflexivity).
  intros [classify [H1 H2]].
  vm_compute in H1, H2. rewrite H1 in H2. discriminate.
Qed.

Lemma other_algorithm_never_accepted_witness :
  (exists e, fst (validar_token Jose.api cfg0 (serving doc1) 1500 none_token initial_world)
             = Raise e)
  /\ validar_token Jose.api cfg0 (serving doc1) 1500 none_token initial_world
     = (Raise (HTTPException 401 "Token inválido ou expirado"), cached doc1).
Proof.
  destruct (other_algorithm_never_accepted Jose.api cfg0 Jose_honours_allow_list
              (serving doc1) 1500 none_token initial_world (header_of "none" "k1")
              eq_refl) as [Hraise Hgeneric].
  - intros H. discriminate H.
  - split; [exact Hraise |].
    apply (Hgeneric doc1 (PStr "k1")
             (PDict [("kty", PStr "RSA"); ("kid", PStr "k1"); ("use", PStr "sig");
                     ("n", PStr "n1"); ("e", PStr "AQAB")])
             (cached doc1) [jwk "k1" "n1"]); reflexivity.
Defined.




(** C8 fails on the code: an expired token and a token with a broken
    signature raise one and the same exception; no reading of the outcome
    can name the expiry as the cause. *)
Lemma expired_not_told_apart :
  fst (validar_token Jose.api cfg0 (serving doc1) 2001 token0 (cached doc1))
  = Raise (HTTPException 401 "Token inválido ou expirado")
  /\ fst (validar_token Jose.api cfg0 (serving doc1) 2001 token0 (cached doc1))
     = fst (validar_token Jose.api cfg0 (serving doc1) 1500 forged_token (cached doc1))
  /\ ~ (exists classify : result pyval -> VerificationFailure,
          classify (fst (validar_token Jose.api cfg0 (serving doc1) 2001 token0
                           (cached doc1))) = TokenExpired
          /\ classify (fst (validar_token Jose.api cfg0 (serving doc1) 1500 forged_token
                              (cached doc1))) = InvalidSignature).
Proof.
  repeat split; try (vm_compute; reflexivity).
  intros [classify [H1 H2]].
  vm_compute in H1, H2. rewrite H1 in H2. discriminate.
Qed.

(** In the reference model of the library: at the very second of expiry
    the token is still accepted, and an issued-at time in the future does
    not make the decoder reject. *)
Example accepted_at_expiry :
  fst (validar_token Jose.api cfg0 (serving doc1) 2000 token0 (cached doc1))
  = Return (Jose.claims_dict claims0).
Proof. vm_compute. reflexivity. Qed.

Example future_iat_accepted :
  fst (validar_token Jose.api cfg0 (serving doc1) 1500
         (token_for "k1" "n1" (with_iat (Some 1900) claims0)) (cached doc1))
  = Return (Jose.claims_dict (with_iat (Some 1900) claims0)).
Proof. vm_compute. reflexivity. Qed.

Lemma expiry_boundary_witness :
  validar_token Jose.api cfg0 (serving doc1) 2000 token0 (cached doc1)
  = (Return (Jose.claims_dict claims0), cached doc1)
  /\ validar_token Jose.api cfg0 (serving doc1) 2001 token0 (cached doc1)
     = (Raise invalid_or_expired, cached doc1).
Proof.
  split.
  - apply (expiry_boundary Jose.example_backend cfg0 (serving doc1) 2000 (cached doc1)
             (cached doc1)
             [("keys", PList [jwk "k1" "n1"])] (header_of "RS256" "k1") (PStr "k1")
             [] (jwk "k1" "n1") [] "n1" "AQAB"
             eq_refl eq_refl eq_refl eq_refl eq_refl eq_refl eq_refl claims0 2000);
      reflexivity.
  - apply (expiry_boundary Jose.example_backend cfg0 (serving doc1) 2001 (cached doc1)
             (cached doc1)
             [("keys", PList [jwk "k1" "n1"])] (header_of "RS256" "k1") (PStr "k1")
             [] (jwk "k1" "n1") [] "n1" "AQAB"
             eq_refl eq_refl eq_refl eq_refl eq_refl eq_refl eq_refl claims0 2000);
      reflexivity.
Defined.

Lemma missing_keys_is_empty_key_set_witness :
  validar_token Jose.api cfg0 (serving (PDict [("error", PStr "not found")])) 1500
    token0 initial_world
  = (Raise key_not_found, cached (PDict [("error", PStr "not found")])).
Proof.
  apply (missing_keys_is_empty_key_set Jose.api cfg0
           (serving (PDict [("error", PStr "not found")])) 1500 token0 initial_world
           (cached (PDict [("error", PStr "not found")]))
           [("error", PStr "not found")] (header_of "RS256" "k1"));
    reflexivity.
Defined.

Lemma first_matching_key_wins_witness :
  fst (validar_token Jose.api cfg0 (serving doc_dup) 1500 token0 (cached doc_dup))
  = settle (decode Jose.api token0
              (PDict [("kty", PStr "RSA"); ("kid", PStr "k1"); ("use", PStr "sig");
                      ("n", PStr "n1"); ("e", PStr "AQAB")])
              ["RS256"] (AUTH0_AUDIENCE cfg0) (issuer cfg0) 1500)
  /\ fst (validar_token Jose.api cfg0 (serving doc_dup) 1500 token0
            (cached (jwks_of [jwk "k0" "n0"; jwk "k1" "n1"])))
     = fst (validar_token Jose.api cfg0 (serving doc_dup) 1500 token0 (cached doc_dup)).
Proof.
  apply (first_matching_key_wins Jose.api cfg0 (serving doc_dup) 1500 token0 1%nat
           [("keys", PList [jwk "k0" "n0"; jwk "k1" "n1"; jwk "k1" "other"])]
           [("keys", PList [jwk "k0" "n0"; jwk "k1" "n1"])]
           (header_of "RS256" "k1")
           [("alg", PStr "RS256"); ("kty", PStr "RSA"); ("use", PStr "sig");
            ("n", PStr "n1"); ("e", PStr "AQAB"); ("kid", PStr "k1")]
           (PStr "k1") (PStr "RSA") (PStr "k1") (PStr "sig") (PStr "n1") (PStr "AQAB")
           [jwk "k0" "n0"] [jwk "k1" "other"] []);
    reflexivity.
Defined.

(** The entry after the first match is not the one used: a token signed by
    the key pair of the later entry with the same kid is rejected. *)
Example later_duplicate_not_used :
  fst (validar_token Jose.api cfg0 (serving doc_dup) 1500 token0 (cached doc_dup))
  = Return (Jose.claims_dict claims0)
  /\ fst (validar_token Jose.api cfg0 (serving doc_dup) 1500
            (token_for "k1" "other" claims0) (cached doc_dup))
     = Raise invalid_or_expired.
Proof. split; vm_compute; reflexivity. Qed.

(** * Further properties of the token dependency *)

Section TokenDependency.
Context {token : Type}.
Variable jwt : jwt_api token.
Variable cfg : configuracoes.

(** X1: whatever the token (readable or not) and whatever the outcome, a
    call issues exactly one request when [_jwks_cache] is [None] and none
    otherwise: the key set is obtained before the token is looked at, and
    never twice in a call. *)
Theorem one_request_per_miss (net : network) (now : Z) (tok : token) (w : world) :
  requests (snd (validar_token jwt cfg net now tok w)) =
  if is_None (_jwks_cache w) then S (requests w) else requests w.
Proof.
  rewrite validar_token_eq. simpl. apply _obter_jwks_requests.
Qed.

(** X2: no [JWTError] and no [httpx.HTTPError] ever leaves [validar_token]:
    whatever it raises is an [HTTPException] or an exception of another
    family that neither [except] clause names. *)
Theorem library_errors_never_escape
    (net : network) (now : Z) (tok : token) (w : world) (e : exn) :
  fst (validar_token jwt cfg net now tok w) = Raise e ->
  is_JWTError e = false /\ is_HTTPError e = false.
Proof.
  rewrite validar_token_eq. simpl. unfold outcome, settle.
  destruct (jwks <- fst (_obter_jwks net w);; verify_with jwt cfg now tok jwks)%res
    as [p | e0]; [discriminate |].
  intros H. inversion H; subst e. unfold translate.
  destruct (is_JWTError e0) eqn:Hj; [split; reflexivity |].
  destruct (is_HTTPError e0) eqn:Hh; [split; reflexivity |].
  split; assumption.
Qed.

(** X3: once a value other than [None] is cached it is permanent: any
    number of later calls, with any tokens and whatever the provider now
    serves, issue no request, leave the state untouched and are each
    answered from that cached value. *)
Theorem cached_key_set_is_permanent
    (net : network) (calls : list (Z * token)) (w : world) :
  is_None (_jwks_cache w) = false ->
  serve_all jwt cfg net calls w =
  (map (fun c => outcome jwt cfg (fst c) (snd c) (Return (_jwks_cache w))) calls, w).
Proof.
  intros Hc. induction calls as [| c rest IH]; simpl; [reflexivity |].
  rewrite (validar_token_cached jwt cfg net (fst c) (snd c) w Hc).
  now rewrite IH.
Qed.

(** X4: a provider that answers 2xx with the JSON document [null] leaves
    the cache empty, so the next call fetches again; the call itself fails
    on [jwks.get] with an [AttributeError] that no [except] clause
    catches. *)
Theorem null_document_is_not_cached
    (net : network) (now : Z) (tok : token) (w : world)
    (code : Z) (h : list (string * pyval)) :
  is_None (_jwks_cache w) = true ->
  net (requests w) = Response code (Some PNone) ->
  is_success code = true ->
  get_unverified_header jwt tok = Return (PDict h) ->
  validar_token jwt cfg net now tok w =
  (Raise (AttributeError "object has no attribute 'get'"), mkWorld PNone (S (requests w)))
  /\ is_None (_jwks_cache (snd (validar_token jwt cfg net now tok w))) = true.
Proof.
  intros Hc Hnet Hok Hh.
  assert (Hcall : validar_token jwt cfg net now tok w =
                  (Raise (AttributeError "object has no attribute 'get'"),
                   mkWorld PNone (S (requests w)))).
  { rewrite validar_token_eq, (_obter_jwks_miss net w Hc), Hnet, Hok. simpl.
    unfold outcome, verify_with. simpl. rewrite Hh. simpl.
    destruct (dict_get h "kid"); reflexivity. }
  split; [exact Hcall | now rewrite Hcall].
Qed.

Lemma build_rsa_key_missing (k : list (string * pyval)) (m : string) :
  first_missing k = Some m ->
  build_rsa_key (PDict k) = Raise (KeyError m).
Proof.
  unfold first_missing, rsa_members, build_rsa_key, has_key. simpl.
  destruct (dict_get k "kty"); simpl; [| intros H; now inversion H].
  destruct (dict_get k "kid"); simpl; [| intros H; now inversion H].
  destruct (dict_get k "use"); simpl; [| intros H; now inversion H].
  destruct (dict_get k "n"); simpl; [| intros H; now inversion H].
  destruct (dict_get k "e"); simpl; [discriminate | intros H; now inversion H].
Qed.

(** X5: when the entry the token's kid resolves to lacks one of the members
    "kty", "use", "n", "e", the call raises [KeyError] for the first one
    missing; it is not turned into an HTTP error by [validar_token], and it
    happens whatever the token's signature and claims are. *)
Theorem incomplete_key_raises_KeyError
    (net : network) (now : Z) (tok : token) (w w' : world)
    (d h k : list (string * pyval)) (kid : pyval)
    (pre post : list pyval) (m : string) :
  _obter_jwks net w = (Return (PDict d), w') ->
  dict_get d "keys" = Some (PList (pre ++ PDict k :: post)) ->
  get_unverified_header jwt tok = Return (PDict h) ->
  py_get (PDict h) "kid" PNone = Return kid ->
  forallb (kid_differs kid) pre = true ->
  kid_matches kid (PDict k) = true ->
  first_missing k = Some m ->
  validar_token jwt cfg net now tok w = (Raise (KeyError m), w').
Proof.
  intros Hfetch Hkeys Hh Hkid Hpre Hkey Hmiss.
  rewrite (validar_token_first_match jwt cfg net now tok w w' d h kid pre (PDict k) post
             Hfetch Hkeys Hh Hkid Hpre Hkey).
  now rewrite (build_rsa_key_missing k m Hmiss).
Qed.

Lemma str_kid_differs_from_None (keys : list pyval) :
  forallb has_str_kid keys = true ->
  forallb (kid_differs PNone) keys = true.
Proof.
  induction keys as [| key rest IH]; simpl; [reflexivity |].
  intros H. apply andb_prop in H. destruct H as [Hk Hrest].
  rewrite (IH Hrest), andb_true_r.
  unfold has_str_kid in Hk. unfold kid_differs.
  destruct (py_getitem key "kid") as [v | e]; [| discriminate].
  destruct v; try discriminate. reflexivity.
Qed.

(** X6: a token whose header has no "kid" member is looked up under
    [None]; against a key set whose entries all carry a string kid it is
    rejected with 401 "chave não encontrada", without its signature or
    claims being examined, even when the set holds a single key. *)
Theorem token_without_kid_is_rejected
    (net : network) (now : Z) (tok : token) (w w' : world)
    (jwks : pyval) (h : list (string * pyval)) (keys : list pyval) :
  _obter_jwks net w = (Return jwks, w') ->
  get_unverified_header jwt tok = Return (PDict h) ->
  dict_get h "kid" = None ->
  keys_of jwks = Return keys ->
  forallb has_str_kid keys = true ->
  validar_token jwt cfg net now tok w = (Raise key_not_found, w').
Proof.
  intros Hfetch Hh Hnokid Hkeys Hstr.
  assert (Hkid : py_get (PDict h) "kid" PNone = Return PNone)
    by (simpl; now rewrite Hnokid).
  rewrite validar_token_eq, Hfetch. simpl. unfold outcome. simpl.
  rewrite (verify_with_lookup jwt cfg now tok jwks (PDict h) PNone keys Hh Hkid Hkeys).
  now rewrite (find_rsa_key_absent PNone keys (str_kid_differs_from_None keys Hstr)).
Qed.

(** X7: a token whose header the library cannot read is rejected with 401
    "Token inválido ou expirado" as soon as a key set is available, whatever
    that key set contains (it may even be no key set at all). *)
Theorem unreadable_token_is_401
    (net : network) (now : Z) (tok : token) (w w' : world) (jwks : pyval) (e : exn) :
  _obter_jwks net w = (Return jwks, w') ->
  get_unverified_header jwt tok = Raise e ->
  is_JWTError e = true ->
  validar_token jwt cfg net now tok w =
  (Raise (HTTPException 401 "Token inválido ou expirado"), w').
Proof.
  intros Hfetch Hh Hj.
  rewrite validar_token_eq, Hfetch. simpl. unfold outcome, verify_with. rewrite Hh. simpl.
  unfold translate. now rewrite Hj.
Qed.

End TokenDependency.

(** ** Where a 503 can come from *)

Lemma py_getitem_not_503 (obj : pyval) (k : string) (e : exn) :
  py_getitem obj k = Raise e -> not_503 e = true.
Proof.
  destruct obj; simpl; try (intros H; inversion H; reflexivity).
  destruct (dict_get items k); intros H; inversion H; reflexivity.
Qed.

Lemma build_rsa_key_not_503 (key : pyval) (e : exn) :
  build_rsa_key key = Raise e -> not_503 e = true.
Proof.
  unfold build_rsa_key.
  destruct (py_getitem key "kty") eqn:H1; simpl; [| intros H; inversion H; subst; eauto using py_getitem_not_503].
  destruct (py_getitem key "kid") eqn:H2; simpl; [| intros H; inversion H; subst; eauto using py_getitem_not_503].
  destruct (py_getitem key "use") eqn:H3; simpl; [| intros H; inversion H; subst; eauto using py_getitem_not_503].
  destruct (py_getitem key "n") eqn:H4; simpl; [| intros H; inversion H; subst; eauto using py_getitem_not_503].
  destruct (py_getitem key "e") eqn:H5; simpl; [discriminate | intros H; inversion H; subst; eauto using py_getitem_not_503].
Qed.

Lemma find_rsa_key_not_503 (keys : list pyval) (kid : pyval) (e : exn) :
  find_rsa_key keys kid = Raise e -> not_503 e = true.
Proof.
  induction keys as [| key rest IH]; simpl; [discriminate |].
  destruct (py_getitem key "kid") as [k | e0] eqn:Hk; simpl.
  - destruct (py_eq k kid); [apply build_rsa_key_not_503 | exact IH].
  - intros H. inversion H; subst. eauto using py_getitem_not_503.
Qed.

Lemma construct_not_503 (loads : Jose.backend) (k : list (string * pyval)) (e : exn) :
  Jose.construct loads k = Raise e -> not_503 e = true.
Proof.
  unfold Jose.construct.
  destruct (negb (Jose.member_is k "kty" (PStr "RSA")));
    [intros H; inversion H; reflexivity |].
  destruct (loads _ _); intros H; inversion H; reflexivity.
Qed.

Lemma Jose_decode_not_503 (loads : Jose.backend) (tok : Jose.token) (key : pyval)
    (algorithms : list string) (audience iss : string) (now : Z) (e : exn) :
  decode (Jose.model loads) tok key algorithms audience iss now = Raise e ->
  not_503 e = true.
Proof.
  simpl. unfold Jose.decode_with.
  destruct tok as [| header body sig]; [intros H; inversion H; reflexivity |].
  destruct (negb (py_truthy match dict_get header "alg" with
                            | Some a => a | None => PNone end));
    [intros H; inversion H; reflexivity |].
  destruct (negb (Jose.alg_allowed match dict_get header "alg" with
                                   | Some a => a | None => PNone end algorithms));
    [intros H; inversion H; reflexivity |].
  destruct key; try (intros H; inversion H; reflexivity).
  destruct (Jose.construct loads items) as [u | e0] eqn:Hc; cbn [rbind].
  2:{ intros H. inversion H; subst e0. eauto using construct_not_503. }
  destruct (negb (Jose.sig_matches _ items sig));
    [intros H; inversion H; reflexivity |].
  destruct (Jose.validate_claims Jose.default_leeway audience iss now body) as [u0 | e0] eqn:Hv;
    cbn [rbind]; [discriminate |].
  intros H. inversion H; subst e0.
  pose proof (validate_claims_raises_JWTError _ _ _ _ _ _ Hv) as Hj.
  unfold not_503. destruct e; simpl in *; try discriminate; reflexivity.
Qed.

Lemma verify_with_Jose_not_503 (cfg : configuracoes) (now : Z) (tok : Jose.token)
    (jwks : pyval) (e : exn) :
  verify_with Jose.api cfg now tok jwks = Raise e -> not_503 e = true.
Proof.
  unfold verify_with.
  destruct (get_unverified_header Jose.api tok) as [h | e0] eqn:Hh; cbn [rbind].
  2:{ intros H. inversion H; subst e0.
      destruct tok; simpl in Hh; inversion Hh; reflexivity. }
  destruct (py_get h "kid" PNone) as [kid | e0] eqn:Hkid; cbn [rbind].
  2:{ intros H. inversion H; subst e0.
      destruct h; simpl in Hkid; inversion Hkid; try reflexivity.
      destruct (dict_get items "kid"); discriminate. }
  destruct (py_get jwks "keys" (PList [])) as [ko | e0] eqn:Hko; cbn [rbind].
  2:{ intros H. inversion H; subst e0.
      destruct jwks; simpl in Hko; inversion Hko; try reflexivity.
      destruct (dict_get items "keys"); discriminate. }
  destruct (py_iter ko) as [keys | e0] eqn:Hit; cbn [rbind].
  2:{ intros H. inversion H; subst e0.
      destruct ko; simpl in Hit; inversion Hit; reflexivity. }
  destruct (find_rsa_key keys kid) as [rk | e0] eqn:Hf; cbn [rbind].
  2:{ intros H. inversion H; subst e0. eauto using find_rsa_key_not_503. }
  destruct (py_truthy rk); cbn [rbind negb]; [| intros H; inversion H; reflexivity].
  destruct (decode Jose.api tok rk ["RS256"] (AUTH0_AUDIENCE cfg) (issuer cfg) now)
    as [p | e0] eqn:Hd; cbn [rbind]; [discriminate |].
  intros H. inversion H; subst e0. eauto using Jose_decode_not_503.
Qed.

Lemma translate_not_503 (e : exn) (detail : string) :
  not_503 e = true -> translate e <> HTTPException 503 detail.
Proof.
  unfold not_503, translate. intros H. apply andb_prop in H. destruct H as [Hh Hc].
  apply negb_true_iff in Hh. rewrite Hh.
  destruct (is_JWTError e); [discriminate |].
  destruct e; try discriminate.
  intros Heq. inversion Heq; subst. discriminate.
Qed.

(** X8: a 503 is only ever reported by a call that found nothing cached and
    whose own request did not succeed.  A call answered from the cache, or
    one whose fetch succeeded, never raises 503, whatever the token (the
    library being the reference model of python-jose). *)
Theorem unavailable_only_after_failed_fetch
    (cfg : configuracoes) (net : network) (now : Z) (tok : Jose.token) (w : world)
    (detail : string) :
  fst (validar_token Jose.api cfg net now tok w) = Raise (HTTPException 503 detail) ->
  is_None (_jwks_cache w) = true /\ fetch_ok net w = None.
Proof.
  rewrite validar_token_eq. simpl. unfold outcome.
  assert (Hlocal : forall jwks,
             settle (verify_with Jose.api cfg now tok jwks) <> Raise (HTTPException 503 detail)).
  { intros jwks. unfold settle.
    destruct (verify_with Jose.api cfg now tok jwks) as [p | e] eqn:Hv; [discriminate |].
    intros H. inversion H as [Ht].
    exact (translate_not_503 e detail (verify_with_Jose_not_503 cfg now tok jwks e Hv) Ht). }
  destruct (is_None (_jwks_cache w)) eqn:Hc.
  - rewrite (_obter_jwks_miss net w Hc). unfold fetch_ok.
    destruct (net (requests w)) as [e | code [j |]]; simpl.
    + intros _. split; reflexivity.
    + destruct (is_success code); simpl.
      * intros H. exfalso. exact (Hlocal j H).
      * intros _. split; reflexivity.
    + destruct (is_success code); simpl; intros _; split; reflexivity.
  - rewrite (_obter_jwks_hit net w Hc). simpl.
    intros H. exfalso. exact (Hlocal (_jwks_cache w) H).
Qed.

(** * Properties of the pacientes repository and routes *)

Module PacientesFatos.
Import Pacientes.
Local Open Scope list_scope.

Section Repositorio.
Variables (f : ModeloPaciente -> ModeloPaciente) (id0 : UUID).
Hypothesis keeps_id : forall m, id (f m) = id m.

Lemma buscar_por_id_id (t : tabela) (m : ModeloPaciente) :
  buscar_por_id id0 t = Some m -> id m = id0.
Proof.
  unfold buscar_por_id. intros H. apply find_some in H.
  now apply Z.eqb_eq.
Qed.

Lemma atualizar_ids (t : tabela) :
  map id (atualizar id0 f t) = map id t.
Proof.
  induction t as [| m rest IH]; simpl; [reflexivity |].
  destruct (Z.eqb (id m) id0); simpl; [now rewrite keeps_id | now rewrite IH].
Qed.

Lemma atualizar_cpfs (t : tabela) :
  (forall m, cpf (f m) = cpf m) ->
  map cpf (atualizar id0 f t) = map cpf t.
Proof.
  intros Hc. induction t as [| m rest IH]; simpl; [reflexivity |].
  destruct (Z.eqb (id m) id0); simpl; [now rewrite Hc | now rewrite IH].
Qed.

Lemma buscar_atualizado (t : tabela) (m : ModeloPaciente) :
  buscar_por_id id0 t = Some m ->
  buscar_por_id id0 (atualizar id0 f t) = Some (f m).
Proof.
  unfold buscar_por_id.
  induction t as [| r rest IH]; simpl; [discriminate |].
  destruct (Z.eqb (id r) id0) eqn:E; simpl.
  - intros H. inversion H; subst. now rewrite keeps_id, E.
  - rewrite E. exact IH.
Qed.

Lemma buscar_outro (t : tabela) (id1 : UUID) :
  id1 <> id0 ->
  buscar_por_id id1 (atualizar id0 f t) = buscar_por_id id1 t.
Proof.
  intros Hne. unfold buscar_por_id.
  induction t as [| r rest IH]; simpl; [reflexivity |].
  destruct (Z.eqb (id r) id0) eqn:E; simpl.
  - rewrite keeps_id. apply Z.eqb_eq in E.
    replace (Z.eqb (id r) id1) with false; [reflexivity |].
    symmetry. apply Z.eqb_neq. congruence.
  - now rewrite IH.
Qed.

Lemma atualizar_fixo (t : tabela) (m : ModeloPaciente) :
  buscar_por_id id0 t = Some m -> f m = m -> atualizar id0 f t = t.
Proof.
  unfold buscar_por_id.
  induction t as [| r rest IH]; simpl; [discriminate |].
  destruct (Z.eqb (id r) id0) eqn:E.
  - intros H Hf. inversion H; subst. now rewrite Hf.
  - intros H Hf. now rewrite (IH H Hf).
Qed.

Lemma atualizar_duas_vezes (g : ModeloPaciente -> ModeloPaciente) (t : tabela) :
  atualizar id0 g (atualizar id0 f t) = atualizar id0 (fun m => g (f m)) t.
Proof.
  induction t as [| r rest IH]; simpl; [reflexivity |].
  destruct (Z.eqb (id r) id0) eqn:E; simpl.
  - now rewrite keeps_id, E.
  - now rewrite E, IH.
Qed.

End Repositorio.

Lemma buscar_no_fim (t : tabela) (p : ModeloPaciente) :
  buscar_por_id (id p) t = None ->
  buscar_por_id (id p) (t ++ [p]) = Some p.
Proof.
  unfold buscar_por_id.
  induction t as [| r rest IH]; simpl.
  - now rewrite Z.eqb_refl.
  - destruct (Z.eqb (id r) (id p)); [discriminate | exact IH].
Qed.

Lemma livre_nao_existe (p : ModeloPaciente) (t : tabela) :
  buscar_por_id (id p) t = None ->
  forallb (fun m => negb (String.eqb (cpf m) (cpf p))) t = true ->
  existsb (fun m => Z.eqb (id m) (id p) || String.eqb (cpf m) (cpf p)) t = false.
Proof.
  unfold buscar_por_id.
  induction t as [| r rest IH]; simpl; [reflexivity |].
  destruct (Z.eqb (id r) (id p)); [discriminate |].
  intros Hid Hcpf. apply andb_prop in Hcpf. destruct Hcpf as [Hr Hrest].
  apply negb_true_iff in Hr. rewrite Hr. simpl. now apply IH.
Qed.

Lemma existe_falso_fora (p : ModeloPaciente) (t : tabela) :
  existsb (fun m => Z.eqb (id m) (id p) || String.eqb (cpf m) (cpf p)) t = false ->
  ~ In (id p) (map id t) /\ ~ In (cpf p) (map cpf t).
Proof.
  induction t as [| r rest IH]; simpl; [tauto |].
  intros H. apply orb_false_elim in H. destruct H as [Hr Hrest].
  apply orb_false_elim in Hr. destruct Hr as [Hid Hcpf].
  apply Z.eqb_neq in Hid. apply String.eqb_neq in Hcpf.
  destruct (IH Hrest) as [H1 H2]. split; intros [Heq | Hin]; auto.
Qed.

Lemma NoDup_no_fim {A : Type} (l : list A) (x : A) :
  NoDup l -> ~ In x l -> NoDup (l ++ [x]).
Proof.
  induction l as [| a l IH]; simpl; intros Hnd Hx.
  - constructor; [tauto | constructor].
  - inversion Hnd; subst. constructor.
    + rewrite in_app_iff. simpl. intros [H | [H | []]]; [contradiction | subst; tauto].
    + apply IH; tauto.
Qed.

Section Rotas.
Variables ATIVO INATIVO : string.
Variable fromisoformat : string -> option date.
Variable order_by_status_nome : tabela -> tabela.

Local Abbreviation converter := (_converter_status_para_bool ATIVO).
Local Abbreviation criar_paciente := (criar_paciente ATIVO fromisoformat).
Local Abbreviation buscar_paciente := (buscar_paciente ATIVO).
Local Abbreviation inativar_paciente := (inativar_paciente INATIVO).
Local Abbreviation ativar_paciente := (ativar_paciente ATIVO).
Local Abbreviation executar_todos := (executar_todos ATIVO INATIVO fromisoformat).

(** X9: creating a patient whose id and cpf are not yet in the table, with
    a birth date the parser accepts, appends one row with status ATIVO; the
    answer reports status true and a search for the new id afterwards
    returns that same answer. *)
Theorem criar_depois_buscar
    (dados : PacienteCriarRequest) (novo_id : UUID) (t : tabela) (d : date) :
  buscar_por_id novo_id t = None ->
  forallb (fun m => negb (String.eqb (cpf m) (criar_cpf dados))) t = true ->
  criar_data_nascimento dados <> "" ->
  fromisoformat (criar_data_nascimento dados) = Some d ->
  let paciente :=
    mkModeloPaciente novo_id (criar_nome dados) (criar_cpf dados) (criar_telefone dados)
      (Some (criar_endereco dados)) (Some (criar_email dados)) (Some d)
      (Some (criar_observacoes dados)) ATIVO in
  criar_paciente dados novo_id t = (Ok (converter paciente), t ++ [paciente])
  /\ dict_status (converter paciente) = true
  /\ buscar_paciente novo_id (t ++ [paciente]) = Ok (converter paciente).
Proof.
  intros Hid Hcpf Hne Hd paciente.
  assert (Hlivre : existsb (fun m => Z.eqb (id m) (id paciente)
                                     || String.eqb (cpf m) (cpf paciente)) t = false)
    by (apply livre_nao_existe; assumption).
  repeat split.
  - unfold Pacientes.criar_paciente.
    apply String.eqb_neq in Hne. rewrite Hne, Hd. simpl.
    unfold criar. fold paciente. now rewrite Hlivre.
  - simpl. apply String.eqb_refl.
  - unfold Pacientes.buscar_paciente.
    pose proof (buscar_no_fim t paciente Hid) as Hb.
    change (id paciente) with novo_id in Hb. now rewrite Hb.
Qed.

(** X10: the birth date is optional in effect.  An empty string is stored
    as NULL without the parser being consulted (no assumption is made on
    it); a non-empty string the parser rejects makes the route raise
    [ValueError] before anything is written. *)
Theorem data_nascimento_vazia_ou_invalida
    (dados : PacienteCriarRequest) (novo_id : UUID) (t : tabela) :
  buscar_por_id novo_id t = None ->
  forallb (fun m => negb (String.eqb (cpf m) (criar_cpf dados))) t = true ->
  (criar_data_nascimento dados = "" ->
   exists paciente,
     criar_paciente dados novo_id t = (Ok (converter paciente), t ++ [paciente])
     /\ data_nascimento paciente = None)
  /\ (criar_data_nascimento dados <> "" ->
      fromisoformat (criar_data_nascimento dados) = None ->
      criar_paciente dados novo_id t = (Erro ValueError, t)).
Proof.
  intros Hid Hcpf. split.
  - intros Hvazia.
    set (paciente :=
           mkModeloPaciente novo_id (criar_nome dados) (criar_cpf dados)
             (criar_telefone dados) (Some (criar_endereco dados))
             (Some (criar_email dados)) None (Some (criar_observacoes dados)) ATIVO).
    exists paciente. split; [| reflexivity].
    unfold Pacientes.criar_paciente. rewrite Hvazia. simpl.
    unfold criar. fold paciente.
    now rewrite (livre_nao_existe paciente t Hid Hcpf).
  - intros Hne Hd. unfold Pacientes.criar_paciente.
    apply String.eqb_neq in Hne. now rewrite Hne, Hd.
Qed.

(** X11: for an id that is in no row, search, inactivate, activate and
    alter all raise 404 "Paciente não encontrado" and leave the table as it
    was. *)
Theorem id_desconhecido_e_404
    (id0 : UUID) (dados : PacienteEditarRequest) (t : tabela) :
  buscar_por_id id0 t = None ->
  buscar_paciente id0 t = Erro (HTTPException 404 "Paciente não encontrado")
  /\ inativar_paciente id0 t = (Erro (HTTPException 404 "Paciente não encontrado"), t)
  /\ ativar_paciente id0 t = (Erro (HTTPException 404 "Paciente não encontrado"), t)
  /\ alterar_paciente id0 dados t
     = (Erro (HTTPException 404 "Paciente não encontrado"), t).
Proof.
  intros H.
  unfold Pacientes.buscar_paciente, Pacientes.inativar_paciente,
    Pacientes.ativar_paciente, alterar_paciente, remover, ativar, editar.
  rewrite H. repeat split.
Qed.

(** X12: inactivating never deletes.  The table keeps the same rows in the
    same order, the row of that id only has its status set to INATIVO, and
    every other row is found exactly as before. *)
Theorem inativar_nao_apaga (id0 : UUID) (t : tabela) (m : ModeloPaciente) :
  buscar_por_id id0 t = Some m ->
  let t' := snd (inativar_paciente id0 t) in
  fst (inativar_paciente id0 t) = Ok tt
  /\ map id t' = map id t
  /\ buscar_por_id id0 t' = Some (com_status INATIVO m)
  /\ (forall id1, id1 <> id0 -> buscar_por_id id1 t' = buscar_por_id id1 t).
Proof.
  intros H. unfold Pacientes.inativar_paciente, remover. rewrite H. simpl.
  repeat split.
  - now apply atualizar_ids.
  - now apply buscar_atualizado.
  - intros id1 Hne. now apply buscar_outro.
Qed.

(** X13: activating undoes inactivating: for a patient that was ATIVO,
    inactivate followed by activate gives back the table it started
    from. *)
Theorem ativar_desfaz_inativar (id0 : UUID) (t : tabela) (m : ModeloPaciente) :
  buscar_por_id id0 t = Some m ->
  status m = ATIVO ->
  ativar_paciente id0 (snd (inativar_paciente id0 t)) = (Ok tt, t).
Proof.
  intros H Hst.
  unfold Pacientes.inativar_paciente, remover. rewrite H. simpl.
  unfold Pacientes.ativar_paciente, ativar.
  rewrite (buscar_atualizado (com_status INATIVO) id0 (fun _ => eq_refl) t m H). simpl.
  rewrite (atualizar_duas_vezes (com_status INATIVO) id0 (fun _ => eq_refl)).
  rewrite (atualizar_fixo (fun m0 => com_status ATIVO (com_status INATIVO m0)) id0 t m H);
    [reflexivity |].
  destruct m. simpl in *. now subst.
Qed.

(** X14: inactivating a patient that is already inactive succeeds again
    (it is not a 404) and changes nothing more. *)
Theorem inativar_duas_vezes (id0 : UUID) (t : tabela) (m : ModeloPaciente) :
  buscar_por_id id0 t = Some m ->
  inativar_paciente id0 (snd (inativar_paciente id0 t))
  = (Ok tt, snd (inativar_paciente id0 t)).
Proof.
  intros H.
  unfold Pacientes.inativar_paciente, remover. rewrite H. simpl.
  rewrite (buscar_atualizado (com_status INATIVO) id0 (fun _ => eq_refl) t m H). simpl.
  rewrite (atualizar_duas_vezes (com_status INATIVO) id0 (fun _ => eq_refl)).
  reflexivity.
Qed.

(** X15: altering a patient replaces name, phone, address, e-mail and notes
    and nothing else: id, cpf, birth date and status of the row are kept,
    the other rows are found as before, and a search afterwards shows the
    new data. *)
Theorem alterar_preserva_identidade
    (id0 : UUID) (dados : PacienteEditarRequest) (t : tabela) (m : ModeloPaciente) :
  buscar_por_id id0 t = Some m ->
  let t' := snd (alterar_paciente id0 dados t) in
  let m' := mkModeloPaciente (id m) (editar_nome dados) (cpf m) (editar_telefone dados)
              (Some (editar_endereco dados)) (Some (editar_email dados))
              (data_nascimento m) (Some (editar_observacoes dados)) (status m) in
  fst (alterar_paciente id0 dados t) = Ok tt
  /\ buscar_paciente id0 t' = Ok (converter m')
  /\ map id t' = map id t
  /\ map cpf t' = map cpf t
  /\ (forall id1, id1 <> id0 -> buscar_por_id id1 t' = buscar_por_id id1 t).
Proof.
  intros H. unfold alterar_paciente, editar. rewrite H. simpl.
  repeat split.
  - unfold Pacientes.buscar_paciente.
    now rewrite (buscar_atualizado
                   (com_dados (editar_nome dados) (editar_telefone dados)
                      (editar_endereco dados) (editar_email dados)
                      (editar_observacoes dados))
                   id0 (fun _ => eq_refl) t m H).
  - now apply atualizar_ids.
  - now apply atualizar_cpfs.
  - intros id1 Hne. now apply buscar_outro.
Qed.

Lemma executar_bem_formada (p : pedido) (t : tabela) :
  bem_formada t -> bem_formada (executar ATIVO INATIVO fromisoformat p t).
Proof.
  intros [Hid Hcpf]. destruct p as [dados novo_id | id0 | id0 | id0 dados]; simpl.
  - unfold Pacientes.criar_paciente.
    destruct (negb (String.eqb (criar_data_nascimento dados) ""));
      [destruct (fromisoformat (criar_data_nascimento dados)) |]; simpl;
      try (split; assumption);
      unfold criar;
      match goal with
      | |- context [existsb ?g t] => destruct (existsb g t) eqn:E
      end; simpl; try (split; assumption);
      apply existe_falso_fora in E; simpl in E; destruct E as [E1 E2];
      split; rewrite map_app; simpl; apply NoDup_no_fim; assumption.
  - unfold Pacientes.inativar_paciente, remover.
    destruct (buscar_por_id id0 t); simpl; [| split; assumption].
    split; [rewrite atualizar_ids | rewrite atualizar_cpfs]; auto.
  - unfold Pacientes.ativar_paciente, ativar.
    destruct (buscar_por_id id0 t); simpl; [| split; assumption].
    split; [rewrite atualizar_ids | rewrite atualizar_cpfs]; auto.
  - unfold alterar_paciente, editar.
    destruct (buscar_por_id id0 t); simpl; [| split; assumption].
    split; [rewrite atualizar_ids | rewrite atualizar_cpfs]; auto.
Qed.

(** X16: the routes keep the table well formed: starting from a table in
    which no two rows share an id or a cpf, any sequence of create,
    inactivate, activate and alter requests, accepted or refused, leaves
    such a table. *)
Theorem rotas_mantem_unicidade (ps : list pedido) (t : tabela) :
  bem_formada t -> bem_formada (executar_todos ps t).
Proof.
  revert t. induction ps as [| p rest IH]; intros t Ht; simpl; [exact Ht |].
  apply IH. now apply executar_bem_formada.
Qed.

(** X17: the listing filters nothing: it has exactly one entry for each row
    of the table, inactive patients included, each with the boolean its
    own status gives. *)
Theorem listar_inclui_inativos (t : tabela) :
  Permutation (order_by_status_nome t) t ->
  Permutation (listar_pacientes ATIVO order_by_status_nome t) (map converter t)
  /\ List.length (listar_pacientes ATIVO order_by_status_nome t) = List.length t.
Proof.
  intros Hperm. unfold listar_pacientes, listar. split.
  - now apply Permutation_map.
  - rewrite List.length_map. now apply Permutation_length.
Qed.

(** X18: the length bounds of the request schemas are those of the columns:
    the row built from a creation request that passes validation, and any
    row altered by an alteration request that passes validation, fit the
    declared column widths (the status value being at most ten characters
    long). *)
Theorem pedidos_validos_cabem_nas_colunas
    (criacao : PacienteCriarRequest) (alteracao : PacienteEditarRequest)
    (novo_id : UUID) (d : option date) (m : ModeloPaciente) :
  (String.length ATIVO <= 10)%nat ->
  valida_criar criacao = true ->
  valida_editar alteracao = true ->
  cabe_nas_colunas m = true ->
  cabe_nas_colunas
    (mkModeloPaciente novo_id (criar_nome criacao) (criar_cpf criacao)
       (criar_telefone criacao) (Some (criar_endereco criacao))
       (Some (criar_email criacao)) d (Some (criar_observacoes criacao)) ATIVO) = true
  /\ cabe_nas_colunas
       (com_dados (editar_nome alteracao) (editar_telefone alteracao)
          (editar_endereco alteracao) (editar_email alteracao)
          (editar_observacoes alteracao) m) = true.
Proof.
  unfold valida_criar, valida_editar, cabe_nas_colunas, entre, com_dados. simpl.
  intros Hst Hc He Hm.
  repeat (apply andb_prop in Hc; destruct Hc as [Hc ?]).
  repeat (apply andb_prop in He; destruct He as [He ?]).
  repeat (apply andb_prop in Hm; destruct Hm as [Hm ?]).
  repeat match goal with
         | Hx : (_ && _)%bool = true |- _ => apply andb_prop in Hx; destruct Hx
         end.
  split; repeat (apply andb_true_intro; split); try assumption.
  now apply Nat.leb_le.
Qed.

End Rotas.

End PacientesFatos.

(** * Instances of the further properties *)

Lemma library_errors_never_escape_witness :
  is_JWTError (HTTPException 401 "Token inválido ou expirado") = false
  /\ is_HTTPError (HTTPException 401 "Token inválido ou expirado") = false.
Proof.
  apply (library_errors_never_escape Jose.api cfg0 (serving doc1) 1500 forged_token
           (cached doc1) (HTTPException 401 "Token inválido ou expirado")).
  reflexivity.
Defined.

Lemma cached_key_set_is_permanent_witness :
  serve_all Jose.api cfg0 unreachable three_calls_later (cached doc1)
  = (map (fun c => outcome Jose.api cfg0 (fst c) (snd c)
                     (Return (_jwks_cache (cached doc1)))) three_calls_later,
     cached doc1).
Proof.
  apply (cached_key_set_is_permanent Jose.api cfg0 unreachable three_calls_later
           (cached doc1)).
  reflexivity.
Defined.

Lemma null_document_is_not_cached_witness :
  validar_token Jose.api cfg0 serving_null 1500 token0 initial_world
  = (Raise (AttributeError "object has no attribute 'get'"), mkWorld PNone 1)
  /\ is_None (_jwks_cache (snd (validar_token Jose.api cfg0 serving_null 1500 token0
                                  initial_world))) = true.
Proof.
  apply (null_document_is_not_cached Jose.api cfg0 serving_null 1500 token0 initial_world
           200 (header_of "RS256" "k1")); reflexivity.
Defined.

Lemma incomplete_key_raises_KeyError_witness :
  validar_token Jose.api cfg0 (serving doc_sem_use) 1500 token0 initial_world
  = (Raise (KeyError "use"), cached doc_sem_use).
Proof.
  apply (incomplete_key_raises_KeyError Jose.api cfg0 (serving doc_sem_use) 1500 token0
           initial_world (cached doc_sem_use)
           [("keys", PList [PDict [("kty", PStr "RSA"); ("kid", PStr "k1");
                                   ("n", PStr "n1"); ("e", PStr "AQAB")]])]
           (header_of "RS256" "k1")
           [("kty", PStr "RSA"); ("kid", PStr "k1"); ("n", PStr "n1"); ("e", PStr "AQAB")]
           (PStr "k1") [] []);
    reflexivity.
Defined.

Lemma token_without_kid_is_rejected_witness :
  validar_token Jose.api cfg0 (serving doc1) 1500 token_sem_kid (cached doc1)
  = (Raise key_not_found, cached doc1).
Proof.
  apply (token_without_kid_is_rejected Jose.api cfg0 (serving doc1) 1500 token_sem_kid
           (cached doc1) (cached doc1) doc1
           [("alg", PStr "RS256"); ("typ", PStr "JWT")] [jwk "k1" "n1"]);
    reflexivity.
Defined.

Lemma unreadable_token_is_401_witness :
  validar_token Jose.api cfg0 (serving doc1) 1500 Jose.Malformed initial_world
  = (Raise (HTTPException 401 "Token inválido ou expirado"), cached doc1).
Proof.
  apply (unreadable_token_is_401 Jose.api cfg0 (serving doc1) 1500 Jose.Malformed
           initial_world (cached doc1) doc1 (JWTError "Error decoding token headers."));
    reflexivity.
Defined.

Lemma unavailable_only_after_failed_fetch_witness :
  is_None (_jwks_cache initial_world) = true
  /\ fetch_ok unreachable initial_world = None.
Proof.
  apply (unavailable_only_after_failed_fetch cfg0 unreachable 1500 none_token
           initial_world "Erro ao validar autenticação").
  reflexivity.
Defined.

Lemma criar_depois_buscar_witness :
  Pacientes.criar_paciente "ATIVO" Pacientes.fromisoformat_exemplo Pacientes.maria 8
    [Pacientes.jose_row]
  = (Pacientes.Ok (Pacientes._converter_status_para_bool "ATIVO" Pacientes.maria_row),
     duas_linhas)
  /\ Pacientes.dict_status
       (Pacientes._converter_status_para_bool "ATIVO" Pacientes.maria_row) = true
  /\ Pacientes.buscar_paciente "ATIVO" 8 duas_linhas
     = Pacientes.Ok (Pacientes._converter_status_para_bool "ATIVO" Pacientes.maria_row).
Proof.
  apply (PacientesFatos.criar_depois_buscar "ATIVO" Pacientes.fromisoformat_exemplo
           Pacientes.maria 8 [Pacientes.jose_row] (Pacientes.mkDate 1990 5 15));
    try reflexivity.
  intros H. discriminate H.
Defined.

Lemma data_nascimento_vazia_ou_invalida_witness :
  (exists paciente,
     Pacientes.criar_paciente "ATIVO" Pacientes.fromisoformat_exemplo maria_sem_data 8
       [Pacientes.jose_row]
     = (Pacientes.Ok (Pacientes._converter_status_para_bool "ATIVO" paciente),
        [Pacientes.jose_row; paciente])
     /\ Pacientes.data_nascimento paciente = None)
  /\ Pacientes.criar_paciente "ATIVO" Pacientes.fromisoformat_exemplo maria_data_invalida 8
       [Pacientes.jose_row]
     = (Pacientes.Erro Pacientes.ValueError, [Pacientes.jose_row]).
Proof.
  split.
  - destruct (PacientesFatos.data_nascimento_vazia_ou_invalida "ATIVO"
                Pacientes.fromisoformat_exemplo maria_sem_data 8 [Pacientes.jose_row]
                eq_refl eq_refl) as [Hvazia _].
    exact (Hvazia eq_refl).
  - destruct (PacientesFatos.data_nascimento_vazia_ou_invalida "ATIVO"
                Pacientes.fromisoformat_exemplo maria_data_invalida 8 [Pacientes.jose_row]
                eq_refl eq_refl) as [_ Hinvalida].
    apply Hinvalida; [intros H; discriminate H | reflexivity].
Defined.

Lemma id_desconhecido_e_404_witness :
  Pacientes.buscar_paciente "ATIVO" 99 duas_linhas
  = Pacientes.Erro (Pacientes.HTTPException 404 "Paciente não encontrado")
  /\ Pacientes.inativar_paciente "INATIVO" 99 duas_linhas
     = (Pacientes.Erro (Pacientes.HTTPException 404 "Paciente não encontrado"), duas_linhas)
  /\ Pacientes.ativar_paciente "ATIVO" 99 duas_linhas
     = (Pacientes.Erro (Pacientes.HTTPException 404 "Paciente não encontrado"), duas_linhas)
  /\ Pacientes.alterar_paciente 99 Pacientes.maria_editada duas_linhas
     = (Pacientes.Erro (Pacientes.HTTPException 404 "Paciente não encontrado"), duas_linhas).
Proof.
  apply (PacientesFatos.id_desconhecido_e_404 "ATIVO" "INATIVO" 99 Pacientes.maria_editada
           duas_linhas).
  reflexivity.
Defined.

Lemma inativar_nao_apaga_witness :
  let t' := snd (Pacientes.inativar_paciente "INATIVO" 7 duas_linhas) in
  fst (Pacientes.inativar_paciente "INATIVO" 7 duas_linhas) = Pacientes.Ok tt
  /\ map Pacientes.id t' = map Pacientes.id duas_linhas
  /\ Pacientes.buscar_por_id 7 t'
     = Some (Pacientes.com_status "INATIVO" Pacientes.jose_row)
  /\ (forall id1, id1 <> 7 ->
      Pacientes.buscar_por_id id1 t' = Pacientes.buscar_por_id id1 duas_linhas).
Proof.
  apply (PacientesFatos.inativar_nao_apaga "INATIVO" 7 duas_linhas Pacientes.jose_row).
  reflexivity.
Defined.

Lemma ativar_desfaz_inativar_witness :
  Pacientes.ativar_paciente "ATIVO" 7
    (snd (Pacientes.inativar_paciente "INATIVO" 7 duas_linhas))
  = (Pacientes.Ok tt, duas_linhas).
Proof.
  apply (PacientesFatos.ativar_desfaz_inativar "ATIVO" "INATIVO" 7 duas_linhas
           Pacientes.jose_row); reflexivity.
Defined.

Lemma inativar_duas_vezes_witness :
  Pacientes.inativar_paciente "INATIVO" 7
    (snd (Pacientes.inativar_paciente "INATIVO" 7 duas_linhas))
  = (Pacientes.Ok tt, snd (Pacientes.inativar_paciente "INATIVO" 7 duas_linhas)).
Proof.
  apply (PacientesFatos.inativar_duas_vezes "INATIVO" 7 duas_linhas Pacientes.jose_row).
  reflexivity.
Defined.

Lemma alterar_preserva_identidade_witness :
  let t' := snd (Pacientes.alterar_paciente 8 Pacientes.maria_editada duas_linhas) in
  fst (Pacientes.alterar_paciente 8 Pacientes.maria_editada duas_linhas) = Pacientes.Ok tt
  /\ Pacientes.buscar_paciente "ATIVO" 8 t'
     = Pacientes.Ok
         (Pacientes._converter_status_para_bool "ATIVO"
            (Pacientes.mkModeloPaciente 8 "Maria de Souza" "123.456.789-00"
               "(47) 98888-8888" (Some "Rua das Palmeiras, 45")
               (Some "maria.souza@email.com") (Some (Pacientes.mkDate 1990 5 15))
               (Some "Alergia a dipirona") "ATIVO"))
  /\ map Pacientes.id t' = map Pacientes.id duas_linhas
  /\ map Pacientes.cpf t' = map Pacientes.cpf duas_linhas
  /\ (forall id1, id1 <> 8 ->
      Pacientes.buscar_por_id id1 t' = Pacientes.buscar_por_id id1 duas_linhas).
Proof.
  apply (PacientesFatos.alterar_preserva_identidade "ATIVO" 8 Pacientes.maria_editada
           duas_linhas Pacientes.maria_row).
  reflexivity.
Defined.

Lemma rotas_mantem_unicidade_witness :
  Pacientes.bem_formada
    (Pacientes.executar_todos "ATIVO" "INATIVO" Pacientes.fromisoformat_exemplo
       pedidos_exemplo [Pacientes.jose_row]).
Proof.
  apply (PacientesFatos.rotas_mantem_unicidade "ATIVO" "INATIVO"
           Pacientes.fromisoformat_exemplo pedidos_exemplo [Pacientes.jose_row]).
  split; simpl; (constructor; [intros [] | constructor]).
Defined.

Lemma listar_inclui_inativos_witness :
  Permutation (Pacientes.listar_pacientes "ATIVO" (@rev Pacientes.ModeloPaciente) duas_linhas)
    (map (Pacientes._converter_status_para_bool "ATIVO") duas_linhas)
  /\ List.length (Pacientes.listar_pacientes "ATIVO" (@rev Pacientes.ModeloPaciente)
                    duas_linhas) = List.length duas_linhas.
Proof.
  apply (PacientesFatos.listar_inclui_inativos "ATIVO" (@rev Pacientes.ModeloPaciente)
           duas_linhas).
  simpl. apply perm_swap.
Defined.

Lemma pedidos_validos_cabem_nas_colunas_witness :
  Pacientes.cabe_nas_colunas
    (Pacientes.mkModeloPaciente 8 (Pacientes.criar_nome Pacientes.maria)
       (Pacientes.criar_cpf Pacientes.maria) (Pacientes.criar_telefone Pacientes.maria)
       (Some (Pacientes.criar_endereco Pacientes.maria))
       (Some (Pacientes.criar_email Pacientes.maria)) None
       (Some (Pacientes.criar_observacoes Pacientes.maria)) "ATIVO") = true
  /\ Pacientes.cabe_nas_colunas
       (Pacientes.com_dados (Pacientes.editar_nome Pacientes.maria_editada)
          (Pacientes.editar_telefone Pacientes.maria_editada)
          (Pacientes.editar_endereco Pacientes.maria_editada)
          (Pacientes.editar_email Pacientes.maria_editada)
          (Pacientes.editar_observacoes Pacientes.maria_editada) Pacientes.jose_row) = true.
Proof.
  apply (PacientesFatos.pedidos_validos_cabem_nas_colunas "ATIVO" Pacientes.maria
           Pacientes.maria_editada 8 None Pacientes.jose_row);
    try reflexivity.
  simpl. lia.
Defined.

(** * The status a search reports *)

Module PacientesStatus.
Import Pacientes.

(** X19: what a search reports follows the last status request: after
    inactivating, the patient is found with status false and every other
    field (id, nome, cpf, telefone, endereco, email, data_nascimento,
    observacoes) as stored before; after activating, with status true and
    the same other fields.  The first part needs the two status values of
    the enumeration to differ. *)
Theorem status_segue_o_ultimo_pedido
    (ATIVO INATIVO : string) (id0 : UUID) (t : tabela) (m : ModeloPaciente) :
  buscar_por_id id0 t = Some m ->
  INATIVO <> ATIVO ->
  buscar_paciente ATIVO id0 (snd (inativar_paciente INATIVO id0 t))
  = Ok {| dict_id := id m;
          dict_nome := nome m;
          dict_cpf := cpf m;
          dict_telefone := telefone m;
          dict_endereco := endereco m;
          dict_email := email m;
          dict_data_nascimento := data_nascimento m;
          dict_observacoes := observacoes m;
          dict_status := false |}
  /\ buscar_paciente ATIVO id0 (snd (ativar_paciente ATIVO id0 t))
     = Ok {| dict_id := id m;
             dict_nome := nome m;
             dict_cpf := cpf m;
             dict_telefone := telefone m;
             dict_endereco := endereco m;
             dict_email := email m;
             dict_data_nascimento := data_nascimento m;
             dict_observacoes := observacoes m;
             dict_status := true |}.
Proof.
  intros H Hne. split.
  - unfold inativar_paciente, remover. rewrite H. simpl.
    unfold buscar_paciente.
    rewrite (PacientesFatos.buscar_atualizado (com_status INATIVO) id0
               (fun _ => eq_refl) t m H).
    unfold _converter_status_para_bool. simpl.
    apply String.eqb_neq in Hne. now rewrite Hne.
  - unfold ativar_paciente, ativar. rewrite H. simpl.
    unfold buscar_paciente.
    rewrite (PacientesFatos.buscar_atualizado (com_status ATIVO) id0
               (fun _ => eq_refl) t m H).
    unfold _converter_status_para_bool. simpl.
    now rewrite String.eqb_refl.
Qed.

End PacientesStatus.

Lemma status_segue_o_ultimo_pedido_witness :
  Pacientes.buscar_paciente "ATIVO" 8
    (snd (Pacientes.inativar_paciente "INATIVO" 8 duas_linhas))
  = Pacientes.Ok
      {| Pacientes.dict_id := 8;
         Pacientes.dict_nome := "Maria da Silva";
         Pacientes.dict_cpf := "123.456.789-00";
         Pacientes.dict_telefone := "(47) 99999-9999";
         Pacientes.dict_endereco := Some "Rua das Flores, 123";
         Pacientes.dict_email := Some "maria@email.com";
         Pacientes.dict_data_nascimento := Some (Pacientes.mkDate 1990 5 15);
         Pacientes.dict_observacoes := Some "";
         Pacientes.dict_status := false |}
  /\ Pacientes.buscar_paciente "ATIVO" 8
       (snd (Pacientes.ativar_paciente "ATIVO" 8 duas_linhas))
     = Pacientes.Ok
         {| Pacientes.dict_id := 8;
            Pacientes.dict_nome := "Maria da Silva";
            Pacientes.dict_cpf := "123.456.789-00";
            Pacientes.dict_telefone := "(47) 99999-9999";
            Pacientes.dict_endereco := Some "Rua das Flores, 123";
            Pacientes.dict_email := Some "maria@email.com";
            Pacientes.dict_data_nascimento := Some (Pacientes.mkDate 1990 5 15);
            Pacientes.dict_observacoes := Some "";
            Pacientes.dict_status := true |}.
Proof.
  apply (PacientesStatus.status_segue_o_ultimo_pedido "ATIVO" "INATIVO" 8 duas_linhas
           Pacientes.maria_row).
  - reflexivity.
  - intros H. discriminate H.
Defined.

(** * A request in flight while a key set is stored *)

Section InFlightFetch.
Context {token : Type}.
Variable jwt : jwt_api token.
Variable cfg : configuracoes.
Variable net : network.

(** C3 (as the code has it): a call that read the cache as [None] and whose
    request then raises (transport error, non-2xx status, body that is not
    JSON) finishes by raising and does not write [_jwks_cache], also when
    another call has stored a key set while the request was in flight.
    The stored key set is left as it is, and every later call, whatever
    the network does, resolves a kid present in it to the same entry and
    hands [jwt.decode] that entry's own key material, issuing no
    request. *)
Theorem failed_fetch_keeps_cache
    (c : call token) (w : world) (now' : Z) (tok' : token)
    (d h k : list (string * pyval)) (kid vkty vkid vuse vn ve : pyval)
    (pre post : list pyval) :
  call_pc c = AtRequest ->
  fetch_ok net w = None ->
  _jwks_cache w = PDict d ->
  dict_get d "keys" = Some (PList (pre ++ PDict k :: post)) ->
  get_unverified_header jwt tok' = Return (PDict h) ->
  py_get (PDict h) "kid" PNone = Return kid ->
  forallb (kid_differs kid) pre = true ->
  dict_get k "kid" = Some vkid ->
  py_eq vkid kid = true ->
  dict_get k "kty" = Some vkty ->
  dict_get k "use" = Some vuse ->
  dict_get k "n" = Some vn ->
  dict_get k "e" = Some ve ->
  let c' := fst (call_step jwt cfg net c w) in
  let w' := snd (call_step jwt cfg net c w) in
  (exists e, call_pc c' = Finished (Raise e))
  /\ requests w' = S (requests w)
  /\ _jwks_cache w' = PDict d
  /\ (forall net' : network,
        validar_token jwt cfg net' now' tok' w' =
        (settle (decode jwt tok'
                   (PDict [("kty", vkty); ("kid", vkid); ("use", vuse);
                           ("n", vn); ("e", ve)])
                   ["RS256"] (AUTH0_AUDIENCE cfg) (issuer cfg) now'),
         w')).
Proof.
  intros Hpc Hfail Hcache Hkeys Hh Hkid Hpre Hk Heq Hkty Huse Hn He c' w'.
  assert (Hstep : (exists e, call_pc c' = Finished (Raise e))
                  /\ w' = mkWorld (PDict d) (S (requests w))).
  { unfold c', w', call_step. rewrite Hpc.
    unfold bind, httpx_get, lift, raise_for_status, response_json, finish, at_pc,
      outcome, settle. simpl.
    unfold fetch_ok in Hfail. rewrite Hcache.
    destruct (net (requests w)) as [e | code body]; simpl.
    - split; [eexists; reflexivity | reflexivity].
    - destruct (is_success code); simpl.
      + destruct body as [j |]; [discriminate |]. simpl.
        split; [eexists; reflexivity | reflexivity].
      + split; [eexists; reflexivity | reflexivity]. }
  destruct Hstep as [Hraise Hw'].
  split; [exact Hraise |]. rewrite Hw'. simpl.
  split; [reflexivity |]. split; [reflexivity |].
  intros net'.
  apply (validar_token_resolved jwt cfg net' now' tok' _ _ d h k kid vkty vkid vuse vn ve
           pre post); try assumption.
  now rewrite _obter_jwks_hit.
Qed.

End InFlightFetch.

(** The state the instance below starts from is reached by two calls
    entered together: both read [None], the first fetches and stores the
    key set, the second is about to issue its own request. *)
Example in_flight_state_reached :
  run Jose.api cfg0 (good_then_down doc1) [0; 1; 0; 0]%nat (entered two_calls) initial_world
  = ([mkCall token0 1500 (Finished (Return (Jose.claims_dict claims0)));
      mkCall token0 1500 AtRequest],
     mkWorld doc1 1).
Proof. vm_compute. reflexivity. Qed.

Lemma failed_fetch_keeps_cache_witness :
  let c' := fst (call_step Jose.api cfg0 (good_then_down doc1)
                   (mkCall token0 1500 AtRequest) (mkWorld doc1 1)) in
  let w' := snd (call_step Jose.api cfg0 (good_then_down doc1)
                   (mkCall token0 1500 AtRequest) (mkWorld doc1 1)) in
  (exists e, call_pc c' = Finished (Raise e))
  /\ requests w' = 2%nat
  /\ _jwks_cache w' = doc1
  /\ (forall net' : network,
        validar_token Jose.api cfg0 net' 1600 token0 w' =
        (settle (decode Jose.api token0
                   (PDict [("kty", PStr "RSA"); ("kid", PStr "k1"); ("use", PStr "sig");
                           ("n", PStr "n1"); ("e", PStr "AQAB")])
                   ["RS256"] (AUTH0_AUDIENCE cfg0) (issuer cfg0) 1600),
         w')).
Proof.
  apply (failed_fetch_keeps_cache Jose.api cfg0 (good_then_down doc1)
           (mkCall token0 1500 AtRequest) (mkWorld doc1 1) 1600 token0
           [("keys", PList [jwk "k1" "n1"])] (header_of "RS256" "k1")
           [("alg", PStr "RS256"); ("kty", PStr "RSA"); ("use", PStr "sig");
            ("n", PStr "n1"); ("e", PStr "AQAB"); ("kid", PStr "k1")]
           (PStr "k1") (PStr "RSA") (PStr "k1") (PStr "sig") (PStr "n1") (PStr "AQAB")
           [] []);
    reflexivity.
Defined.

(** C3 fails on the code: a fetch whose answer is a 200 that is not a key
    set is not a failure for [_obter_jwks].  Two calls read the cache as
    [None]; the first fetches the key set, stores it and accepts the
    token; the second, whose request was in flight, receives a document
    without keys and stores it over the good key set, after which the same
    token is rejected with 401. *)
Lemma late_fetch_replaces_good_cache :
  let before := snd (run Jose.api cfg0 (good_then_keyless doc1) [0; 1; 0; 0]%nat
                       (entered two_calls) initial_world) in
  let after := snd (run Jose.api cfg0 (good_then_keyless doc1) [0; 1; 0; 0; 1; 1]%nat
                      (entered two_calls) initial_world) in
  _jwks_cache before = doc1
  /\ fst (validar_token Jose.api cfg0 unreachable 1500 token0 before)
     = Return (Jose.claims_dict claims0)
  /\ _jwks_cache after = not_a_key_set
  /\ _jwks_cache after <> _jwks_cache before
  /\ fst (validar_token Jose.api cfg0 unreachable 1500 token0 after)
     = Raise key_not_found.
Proof.
  repeat split; try (vm_compute; reflexivity).
  vm_compute. discriminate.
Qed.

(** The two checks of the library that the claim set and the key material
    can fail: a token with an "at_hash" claim is rejected with the generic
    401 although it is signed, unexpired and names the right issuer and
    audience; and key material the backend cannot load makes the call
    raise a [ValueError] that no [except] clause catches. *)
Example at_hash_token_rejected :
  fst (validar_token Jose.api cfg0 (serving doc1) 1500
         (token_for "k1" "n1" claims_at_hash) (cached doc1))
  = Raise invalid_or_expired.
Proof. vm_compute. reflexivity. Qed.

Example unusable_key_raises_ValueError :
  fst (validar_token Jose.api cfg0 (serving doc_unusable) 1500
         (Jose.Compact (header_of "RS256" "k1") claims0 Jose.Forged) (cached doc_unusable))
  = Raise (ValueError "key material is not usable").
Proof. vm_compute. reflexivity. Qed.
